(** * classy.predict: the command-line prediction driver

    A shallow embedding of [src/classy/predict.py].  The driver is glue
    around an opaque fitted pipeline: it branches over command-line flags,
    calls the pipeline, and prints one line per item.  Its effects (loading
    files, invoking pipeline methods, printing) are recorded in a trace, and
    Python exceptions are values of an error type, so that "is loaded once",
    "attempts predict_proba first" and "raises ValueError" are statements
    about the run of a function. *)

From Stdlib Require Import ZArith NArith List String Ascii Lia Bool DecimalString.
From ExtLib Require Import Structures.Monad Structures.MonadExc.
Import ListNotations.
Import MonadNotation.
Local Open Scope monad_scope.
Local Open Scope string_scope.
Local Open Scope list_scope.
Local Open Scope Z_scope.

(** ** Python values and builtins used by the driver *)

(** The values the driver prints: [None], integers and strings. *)
Inductive pyval : Type :=
| VNone
| VInt (i : Z)
| VStr (s : string).

(** [str(i)] for an integer. *)
Definition str_int (i : Z) : string := NilZero.string_of_int (Z.to_int i).

(** [str(v)], as [print] applies it to each of its arguments. *)
Definition py_str (v : pyval) : string :=
  match v with
  | VNone => "None"
  | VInt i => str_int i
  | VStr s => s
  end.

(** Truth value of an optional sequence: [None] and the empty sequence are
    both falsy. *)
Definition truthy {A : Type} (o : option (list A)) : bool :=
  match o with
  | Some (_ :: _) => true
  | _ => false
  end.

(** The sequence behind a truthy option (empty otherwise). *)
Definition seq_of {A : Type} (o : option (list A)) : list A :=
  match o with
  | Some l => l
  | None => []
  end.

(** [len(l)] as a Python integer. *)
Definition len {A : Type} (l : list A) : Z := Z.of_nat (List.length l).

(** [l[i]]: indices [0 .. len-1] count from the front, [-len .. -1] from the
    back, anything else is an [IndexError] (here [None]). *)
Definition py_getitem {A : Type} (l : list A) (i : Z) : option A :=
  if (0 <=? i) && (i <? len l) then nth_error l (Z.to_nat i)
  else if (- len l <=? i) && (i <? 0) then nth_error l (Z.to_nat (len l + i))
  else None.

(** [range(1, n + 1)]. *)
Definition range1 (n : nat) : list Z := map Z.of_nat (seq 1 n).

(** [sep.join(fields)]. *)
Fixpoint join (sep : string) (fields : list string) : string :=
  match fields with
  | [] => ""
  | [f] => f
  | f :: rest => (f ++ sep ++ join sep rest)%string
  end.

(** [s.split(c)] for a one-character separator. *)
Fixpoint split_on (c : ascii) (s : string) : list string :=
  match s with
  | EmptyString => [""]
  | String a rest =>
      if Ascii.eqb a c then "" :: split_on c rest
      else match split_on c rest with
           | [] => [String a ""]
           | f :: fs => String a f :: fs
           end
  end.

Definition tab : string := String (ascii_of_nat 9) "".
Definition newline : string := String (ascii_of_nat 10) "".

(** ** Exceptions, effects and the monad of runs *)

(** The exception classes the driver raises or lets through. *)
Inductive exn : Type :=
| ValueError (msg : string)
| AttributeError (attr : string)
| AssertionError (msg : string)
| IndexError.

(** The pipeline methods the driver calls. *)
Inductive method : Type := Predict | PredictProba | DecisionFunction.

(** Observable effects, in the order they happen. [Invoke m] records the
    attempt to call [pipeline.m(...)], whether or not the attribute exists. *)
Inductive event : Type :=
| LoadIndex (path : string)
| LoadModel (path : string)
| LoadVocabulary (path : string)
| Invoke (m : method)
| Print (text : string).

(** A run: the effects performed and either the exception that ended it or
    its result. *)
Definition Py (A : Type) : Type := (list event * (exn + A))%type.

Definition py_ret {A : Type} (a : A) : Py A := ([], inr a).

Definition py_bind {A B : Type} (m : Py A) (k : A -> Py B) : Py B :=
  match m with
  | (t, inl e) => (t, inl e)
  | (t, inr a) => let (t', r) := k a in (t ++ t', r)
  end.

Definition py_raise {A : Type} (e : exn) : Py A := ([], inl e).

(** [try: m  except: h]: the effects of [m] up to the exception stay. *)
Definition py_catch {A : Type} (m : Py A) (h : exn -> Py A) : Py A :=
  match m with
  | (t, inl e) => let (t', r) := h e in (t ++ t', r)
  | (t, inr a) => (t, inr a)
  end.

#[global] Instance Monad_Py : Monad Py :=
  {| ret := @py_ret; bind := @py_bind |}.

#[global] Instance MonadExc_Py : MonadExc exn Py :=
  {| raise := @py_raise; catch := @py_catch |}.

Definition emit (ev : event) : Py unit := ([ev], inr tt).

Definition trace {A : Type} (m : Py A) : list event := fst m.
Definition outcome {A : Type} (m : Py A) : exn + A := snd m.

(** [except AttributeError:] handles that class only; anything else is
    raised again. *)
Definition except_AttributeError {A : Type} (m : Py A) (h : Py A) : Py A :=
  catch m (fun e => match e with
                    | AttributeError _ => h
                    | _ => raise e
                    end).

(** [for x in xs: body x]. *)
Fixpoint for_each {A : Type} (xs : list A) (body : A -> Py unit) : Py unit :=
  match xs with
  | [] => ret tt
  | x :: rest => body x ;; for_each rest body
  end.

(** [print(a, b, ..., sep='\t', end=e)]. *)
Definition print (args : list pyval) (e : string) : Py unit :=
  emit (Print (join tab (map py_str args) ++ e)%string).

(** What reached standard output, one entry per [print] call. *)
Fixpoint printed (t : list event) : list string :=
  match t with
  | [] => []
  | Print s :: rest => s :: printed rest
  | _ :: rest => printed rest
  end.

(** Standard output as one string. *)
Definition stdout (t : list event) : string := String.concat "" (printed t).

(** How many times a serialized pipeline was loaded. *)
Fixpoint loads (t : list event) : nat :=
  match t with
  | [] => 0%nat
  | LoadModel _ :: rest => S (loads rest)
  | _ :: rest => loads rest
  end.

(** The scoring methods attempted, in order. *)
Fixpoint score_calls (t : list event) : list method :=
  match t with
  | [] => []
  | Invoke PredictProba :: rest => PredictProba :: score_calls rest
  | Invoke DecisionFunction :: rest => DecisionFunction :: score_calls rest
  | _ :: rest => score_calls rest
  end.

(** ** Scores and their rendering *)

(** A Python float: a finite binary value [(-1)^neg * m * 2^e], an infinity
    or a NaN. *)
Inductive pyfloat : Type :=
| Finite (neg : bool) (m : N) (e : Z)
| Infinity (neg : bool)
| NaN.

(** One row of what [predict_proba] or [decision_function] returns: a float
    (binary [decision_function]) or a sequence of floats. *)
Inductive score_row : Type :=
| Scalar (s : pyfloat)
| Vector (v : list pyfloat).

(** [m * 2^e * 10^8] as the fraction [scaled_num m e / scaled_den e]. *)
Definition scaled_num (m : N) (e : Z) : N :=
  (if (0 <=? e)%Z then m * 10 ^ 8 * 2 ^ Z.to_N e else m * 10 ^ 8)%N.

Definition scaled_den (e : Z) : N :=
  (if (0 <=? e)%Z then 1 else 2 ^ Z.to_N (- e))%N.

(** The integer nearest to [num / den], ties to even. *)
Definition round_half_even (num den : N) : N :=
  (let q := num / den in
   let r := num mod den in
   if (den <? 2 * r) || ((2 * r =? den) && N.odd q) then q + 1 else q)%N.

Definition digit (n : N) : ascii := ascii_of_N (48 + n mod 10).

(** The last [width] decimal digits of [n], zero-padded. *)
Fixpoint digits (width : nat) (n : N) : string :=
  match width with
  | O => ""
  | S w => (digits w (n / 10) ++ String (digit n) "")%string
  end.

Definition str_N (n : N) : string := NilZero.string_of_uint (N.to_uint n).

(** The sign position of the [' '] flag: a minus for negative numbers, a
    space otherwise. *)
Definition sign_char (neg : bool) : string := if neg then "-" else " ".

(** ['{: 0.8f}'.format(s)]: sign position, integer part, a point and eight
    decimals, the value correctly rounded. *)
Definition format_score (s : pyfloat) : string :=
  match s with
  | Finite neg m e =>
      let q := round_half_even (scaled_num m e) (scaled_den e) in
      (sign_char neg ++ str_N (q / 10 ^ 8) ++ "." ++ digits 8 (q mod 10 ^ 8))%string
  | Infinity neg => (sign_char neg ++ "inf")%string
  | NaN => " nan"
  end.

(** [if isinstance(scores, float): scores = (scores,)]. *)
Definition as_tuple (i_scores : score_row) : list pyfloat :=
  match i_scores with
  | Scalar s => [s]
  | Vector v => v
  end.

(** ['\t'.join('{: 0.8f}'.format(s) for s in scores)], after the float
    case. *)
Definition score_str (i_scores : score_row) : string :=
  join tab (map format_score (as_tuple i_scores)).

(** ** The objects the driver works on *)

(** The fitted pipeline: [predict] always, the two scoring methods when the
    estimator has them. *)
Record Pipeline (X : Type) : Type := {
  predict : X -> list Z;
  predict_proba : option (X -> list score_row);
  decision_function : option (X -> list score_row)
}.
Arguments predict {X} _ _.
Arguments predict_proba {X} _.
Arguments decision_function {X} _.

(** What [load_index] returns: the feature matrix and the text identifiers,
    when the file carried any. *)
Record Data (I : Type) : Type := {
  data_index : I;
  text_ids : option (list pyval)
}.
Arguments data_index {I} _.
Arguments text_ids {I} _.

(** The parsed command line. *)
Record Args : Type := {
  text : bool;
  index : option (list string);
  model : string;
  scores : bool;
  label : option (list string);
  vocabulary : option string;
  csv : bool;
  encoding : option string;
  annotate : list Z;
  feature : list Z;
  no_id : bool;
  id_second : bool;
  id_last : bool
}.

Definition set_offsets (args : Args) (a f : list Z) : Args :=
  {| text := text args; index := index args; model := model args;
     scores := scores args; label := label args;
     vocabulary := vocabulary args; csv := csv args;
     encoding := encoding args; annotate := a; feature := f;
     no_id := no_id args; id_second := id_second args;
     id_last := id_last args |}.

(** The collaborators the driver imports ([joblib], and the sibling modules
    [data], [extract], [transform] and [generate]) are outside the source
    and opaque to the driver: they are parameters, the fields of a world
    the driver runs in.  [X] is a sparse feature matrix,
    [I] the matrix as stored in an index file, [V] a vocabulary and [R] a
    stream of rows. *)
Record World (X I V R : Type) : Type := {
  load_index : string -> Data I;
  tocsr : I -> X;
  get_n_rows : Data I -> nat;
  joblib_load : string -> Pipeline X;
  load_vocabulary : string -> V;
  fix_column_offset : list Z -> list Z;
  row_generator : string -> R;
  row_generator_from_file : string -> string -> option string -> R;
  transform_input : R -> Args -> R;
  FeatureEncoder : R -> V -> option Z -> list (pyval * X)
}.
Arguments load_index {X I V R} _ _.
Arguments tocsr {X I V R} _ _.
Arguments get_n_rows {X I V R} _ _.
Arguments joblib_load {X I V R} _ _.
Arguments load_vocabulary {X I V R} _ _.
Arguments fix_column_offset {X I V R} _ _.
Arguments row_generator {X I V R} _ _.
Arguments row_generator_from_file {X I V R} _ _ _ _.
Arguments transform_input {X I V R} _ _ _.
Arguments FeatureEncoder {X I V R} _ _ _ _.

(** ** The driver *)

(** [find_id_col]: the identifier column handed to the encoder; [None] is
    Python's [None] (no identifier column). *)
Definition find_id_col (args : Args) : option Z :=
  if no_id args then None
  else if id_second args then Some 1
  else if id_last args then Some (-1)
  else Some 0.

(** [make_label]: [str] unless label names were given, else the lambda
    [args.label[i] if i < n_labels else i]. *)
Definition make_label (args : Args) (i : Z) : Py pyval :=
  if truthy (label args) then
    let n_labels := len (seq_of (label args)) in
    if i <? n_labels then
      match py_getitem (seq_of (label args)) i with
      | Some name => ret (VStr name)
      | None => raise IndexError
      end
    else ret (VInt i)
  else ret (VStr (str_int i)).

Definition report_labels (predictions : list Z) (text_ids : list pyval)
    (make_label : Z -> Py pyval) : Py unit :=
  for_each (combine text_ids predictions)
    (fun '(text_id, prediction) =>
       l <- make_label prediction ;;
       print [text_id; l] newline).

Definition report_with_scores (predictions : list Z)
    (scores : list score_row) (text_ids : list pyval)
    (make_label : Z -> Py pyval) : Py unit :=
  for_each (combine text_ids (combine predictions scores))
    (fun '(text_id, (prediction, i_scores)) =>
       let score_str := score_str i_scores in
       l <- make_label prediction ;;
       print [text_id; l; VStr score_str] newline).

(** [pipeline.predict(x)]. *)
Definition call_predict {X : Type} (pipeline : Pipeline X) (x : X)
    : Py (list Z) :=
  emit (Invoke Predict) ;; ret (predict pipeline x).

(** [pipeline.predict_proba(x)] and [pipeline.decision_function(x)]: a
    pipeline without the method raises [AttributeError]. *)
Definition call_predict_proba {X : Type} (pipeline : Pipeline X) (x : X)
    : Py (list score_row) :=
  emit (Invoke PredictProba) ;;
  match predict_proba pipeline with
  | Some f => ret (f x)
  | None => raise (AttributeError "predict_proba")
  end.

Definition call_decision_function {X : Type} (pipeline : Pipeline X) (x : X)
    : Py (list score_row) :=
  emit (Invoke DecisionFunction) ;;
  match decision_function pipeline with
  | Some f => ret (f x)
  | None => raise (AttributeError "decision_function")
  end.

(** [a[0]] on what a scoring method returned. *)
Definition first_row (rows : list score_row) : Py score_row :=
  match py_getitem rows 0 with
  | Some r => ret r
  | None => raise IndexError
  end.

(** [append_scores]; Python returns nothing, the result here is the final
    value of the function's own local [no_proba], which the caller never
    sees. *)
Definition append_scores {X : Type} (pipeline : Pipeline X) (features : X)
    (no_proba : bool) : Py bool :=
  '(scores, no_proba) <-
    (if no_proba then
       a <- call_decision_function pipeline features ;;
       s <- first_row a ;; ret (s, no_proba)
     else
       except_AttributeError
         (a <- call_predict_proba pipeline features ;;
          s <- first_row a ;; ret (s, no_proba))
         (a <- call_decision_function pipeline features ;;
          s <- first_row a ;; ret (s, true))) ;;
  print [VStr (score_str scores)] newline ;;
  ret no_proba.

(** [str(prediction.shape)] for a one-dimensional array. *)
Definition shape_str (prediction : list Z) : string :=
  ("(" ++ str_int (len prediction) ++ ",)")%string.

Section Driver.
Context {X I V R : Type} (w : World X I V R).

Definition get_scores (pipeline : Pipeline X) (data : Data I)
    : Py (list score_row) :=
  except_AttributeError
    (call_predict_proba pipeline (tocsr w (data_index data)))
    (call_decision_function pipeline (tocsr w (data_index data))).

Definition get_or_make_text_ids (data : Data I) : list pyval :=
  if truthy (text_ids data) then seq_of (text_ids data)
  else map VInt (range1 (get_n_rows w data)).

Definition batch_predictor (args : Args) : Py unit :=
  if negb (truthy (index args)) then
    raise (ValueError "missing input data file (inverted index)")
  else if 1 <? len (seq_of (index args)) then
    raise (ValueError "more than one input data file (inverted index)")
  else
    match py_getitem (seq_of (index args)) 0 with
    | None => raise IndexError
    | Some path =>
        emit (LoadIndex path) ;;
        let data := load_index w path in
        emit (LoadModel (model args)) ;;
        let pipeline := joblib_load w (model args) in
        predictions <- call_predict pipeline (tocsr w (data_index data)) ;;
        sc <- (if scores args then
          s <- get_scores pipeline data ;; ret (Some s)
        else ret None) ;;
        let text_ids := get_or_make_text_ids data in
        if scores args then
          report_with_scores predictions (seq_of sc) text_ids (make_label args)
        else
          report_labels predictions text_ids (make_label args)
    end.

(** The body of the loop of [predict_from], for one decoded row. *)
Definition predict_row (args : Args) (pipeline : Pipeline X)
    (no_proba : bool) (row : pyval * X) : Py unit :=
  let '(text_id, features) := row in
  prediction <- call_predict pipeline features ;;
  (if len prediction =? 1 then ret tt
   else raise (AssertionError
                 ("not a single prediction: " ++ shape_str prediction)%string)) ;;
  match py_getitem prediction 0 with
  | None => raise IndexError
  | Some p =>
      l <- make_label args p ;;
      print [text_id; l] (if scores args then tab else newline) ;;
      if scores args then
        append_scores pipeline features no_proba ;; ret tt
      else ret tt
  end.

Definition predict_from (text_rows : R) (args : Args) (vocab : V)
    : Py unit :=
  let stream := transform_input w text_rows args in
  let id_col := find_id_col args in
  let stream := FeatureEncoder w stream vocab id_col in
  emit (LoadModel (model args)) ;;
  let pipeline := joblib_load w (model args) in
  let no_proba := false in
  for_each stream (predict_row args pipeline no_proba).

Definition stream_predictor (args : Args) : Py unit :=
  match vocabulary args with
  | None =>
      raise (ValueError
               "missing required option for text input: --vocabulary VOCAB")
  | Some path =>
      emit (LoadVocabulary path) ;;
      let vocab := load_vocabulary w path in
      let dialect := if csv args then "excel" else "plain" in
      let args := set_offsets args (fix_column_offset w (annotate args))
                                   (fix_column_offset w (feature args)) in
      if negb (truthy (index args)) then
        predict_from (row_generator w dialect) args vocab
      else
        for_each (seq_of (index args))
          (fun file =>
             predict_from
               (row_generator_from_file w file dialect (encoding args))
               args vocab)
  end.

Definition predict_labels (args : Args) : Py unit :=
  if text args then stream_predictor args else batch_predictor args.

End Driver.

(** ** A concrete world, for running the driver

    Feature matrices are row counts; an index file named by a decimal
    digit string holds that many rows; streams are already-decoded rows. *)

Module Demo.

Definition half : pyfloat := Finite false 1 (-1).
Definition tenth : pyfloat := Finite false 3602879701896397 (-55).
Definition nine_tenths : pyfloat := Finite false 8106479329266893 (-53).

(** A probabilistic classifier: predicts class 1, with probabilities
    [0.1, 0.9]. *)
Definition proba_pipeline : Pipeline nat :=
  {| predict := fun n => repeat 1 n;
     predict_proba := Some (fun n => repeat (Vector [tenth; nine_tenths]) n);
     decision_function := None |}.

(** A margin classifier: only [decision_function], one float per row. *)
Definition svm_pipeline : Pipeline nat :=
  {| predict := fun n => repeat 0 n;
     predict_proba := None;
     decision_function := Some (fun n => repeat (Scalar half) n) |}.

(** A pipeline that answers two predictions whatever it is given. *)
Definition double_pipeline : Pipeline nat :=
  {| predict := fun _ => [0; 1];
     predict_proba := None;
     decision_function := Some (fun n => repeat (Scalar half) n) |}.

Definition world : World nat nat unit (list (pyval * nat)) :=
  {| load_index := fun path =>
       {| data_index := String.length path;
          text_ids := if String.eqb path "ids" then Some [VStr "a"; VStr "b"; VStr "c"]
                      else if String.eqb path "nil" then Some []
                      else None |};
     tocsr := fun n => n;
     get_n_rows := fun d => data_index d;
     joblib_load := fun path =>
       if String.eqb path "svm" then svm_pipeline
       else if String.eqb path "double" then double_pipeline
       else proba_pipeline;
     load_vocabulary := fun _ => tt;
     fix_column_offset := fun l => l;
     row_generator := fun _ => [(VStr "s1", 1%nat)];
     row_generator_from_file := fun file _ _ =>
       [(VStr (file ++ ":1")%string, 1%nat); (VStr (file ++ ":2")%string, 1%nat)];
     transform_input := fun r _ => r;
     FeatureEncoder := fun r _ _ => r |}.

(** A command line: mode, input files, model, [--scores], [--label],
    [--vocabulary]; the other options at their defaults. *)
Definition cmdline (text : bool) (index : option (list string))
    (model : string) (scores : bool) (label : option (list string))
    (vocabulary : option string) : Args :=
  {| text := text; index := index; model := model; scores := scores;
     label := label; vocabulary := vocabulary; csv := false;
     encoding := None; annotate := []; feature := []; no_id := false;
     id_second := false; id_last := false |}.

(** The identifier-column flags on an otherwise plain stream command line. *)
Definition id_flags (no_id id_second id_last : bool) : Args :=
  {| text := true; index := None; model := "proba"; scores := false;
     label := None; vocabulary := Some "vocab"; csv := false;
     encoding := None; annotate := []; feature := []; no_id := no_id;
     id_second := id_second; id_last := id_last |}.

End Demo.

(** ** Further pipelines, for the edge cases of scoring *)

Module Edge.

(** A pipeline with [predict] alone. *)
Definition bare_pipeline : Pipeline nat :=
  {| predict := fun n => repeat 1 n;
     predict_proba := None;
     decision_function := None |}.

(** A pipeline whose [predict_proba] answers no row at all. *)
Definition hollow_pipeline : Pipeline nat :=
  {| predict := fun n => repeat 1 n;
     predict_proba := Some (fun _ => []);
     decision_function := Some (fun n => repeat (Scalar Demo.half) n) |}.

(** The world of [Demo], with every model file holding [bare_pipeline]. *)
Definition world : World nat nat unit (list (pyval * nat)) :=
  {| load_index := load_index Demo.world;
     tocsr := tocsr Demo.world;
     get_n_rows := get_n_rows Demo.world;
     joblib_load := fun _ => bare_pipeline;
     load_vocabulary := load_vocabulary Demo.world;
     fix_column_offset := fix_column_offset Demo.world;
     row_generator := row_generator Demo.world;
     row_generator_from_file := row_generator_from_file Demo.world;
     transform_input := transform_input Demo.world;
     FeatureEncoder := FeatureEncoder Demo.world |}.

(** A pipeline that answers the classes 0 and -2 for every matrix. *)
Definition negative_pipeline : Pipeline nat :=
  {| predict := fun _ => [0; -2];
     predict_proba := None;
     decision_function := None |}.

(** The world of [Demo], with every model file holding
    [negative_pipeline]. *)
Definition negative_world : World nat nat unit (list (pyval * nat)) :=
  {| load_index := load_index Demo.world;
     tocsr := tocsr Demo.world;
     get_n_rows := get_n_rows Demo.world;
     joblib_load := fun _ => negative_pipeline;
     load_vocabulary := load_vocabulary Demo.world;
     fix_column_offset := fix_column_offset Demo.world;
     row_generator := row_generator Demo.world;
     row_generator_from_file := row_generator_from_file Demo.world;
     transform_input := transform_input Demo.world;
     FeatureEncoder := FeatureEncoder Demo.world |}.

End Edge.

(** ** Vocabulary of the properties *)

(** A computation that loads no pipeline, whatever its outcome. *)
Definition load_free {A : Type} (m : Py A) : Prop := loads (trace m) = 0%nat.

(** The input sources of an invocation: the files in stream mode when some
    are named, the single index file or standard input otherwise. *)
Definition input_sources (args : Args) : nat :=
  if text args && truthy (index args) then List.length (seq_of (index args))
  else 1%nat.

(** A prediction the label resolver accepts: with label names given, it is
    not below [-len(label)]. *)
Definition resolvable (args : Args) (p : Z) : Prop :=
  truthy (label args) = true -> - len (seq_of (label args)) <= p.

(** The text a prediction is printed as. *)
Definition label_text (args : Args) (p : Z) : string :=
  match outcome (make_label args p) with
  | inr l => py_str l
  | inl _ => ""
  end.

(** The scoring methods one call of [append_scores] goes through when the
    caller passes [no_proba = False]. *)
Definition attempts {X : Type} (p : Pipeline X) : list method :=
  match predict_proba p with
  | Some _ => [PredictProba]
  | None => [PredictProba; DecisionFunction]
  end.

(** A computation that does not end in an [AssertionError]. *)
Definition assertion_free {A : Type} (m : Py A) : Prop :=
  forall msg, outcome m <> inl (AssertionError msg).

(** Whether the character [c] occurs in [s]. *)
Fixpoint has_char (c : ascii) (s : string) : bool :=
  match s with
  | EmptyString => false
  | String a rest => Ascii.eqb a c || has_char c rest
  end.

(** Decimal digits only. *)
Definition is_digit (a : ascii) : bool :=
  ((48 <=? N_of_ascii a) && (N_of_ascii a <=? 57))%N.

Fixpoint all_digits (s : string) : bool :=
  match s with
  | EmptyString => true
  | String a rest => is_digit a && all_digits rest
  end.

Definition tab_char : ascii := ascii_of_nat 9.

(** How often an event of a given kind occurs in a trace. *)
Definition occurrences (select : event -> bool) (t : list event) : nat :=
  List.length (filter select t).

Definition is_predict (ev : event) : bool :=
  match ev with
  | Invoke Predict => true
  | _ => false
  end.

Definition is_load_vocabulary (ev : event) : bool :=
  match ev with
  | LoadVocabulary _ => true
  | _ => false
  end.

Definition is_load_index (ev : event) : bool :=
  match ev with
  | LoadIndex _ => true
  | _ => false
  end.

(** Scoring calls and prints: the only effects past [predict] in the
    treatment of a row or of a batch. *)
Definition scoring_or_print (ev : event) : bool :=
  match ev with
  | Invoke PredictProba | Invoke DecisionFunction | Print _ => true
  | _ => false
  end.

(** Anything but the loading of an index file or of a vocabulary. *)
Definition no_input_load (ev : event) : bool :=
  match ev with
  | LoadIndex _ | LoadVocabulary _ => false
  | _ => true
  end.

(** All the effects of a run are of the kinds [allowed]. *)
Definition effects_in {A : Type} (allowed : event -> bool) (m : Py A) : Prop :=
  forallb allowed (trace m) = true.

(** A run ends, if in an exception, in one that satisfies [ok]. *)
Definition raises_only {A : Type} (ok : exn -> Prop) (m : Py A) : Prop :=
  forall e, outcome m = inl e -> ok e.



(** The score row [append_scores] prints for [x] when it starts from
    [no_proba = False]: the first row of [predict_proba], or of
    [decision_function] when [predict_proba] is missing. *)
Definition row_scores {X : Type} (p : Pipeline X) (x : X) : option score_row :=
  match predict_proba p with
  | Some f => py_getitem (f x) 0
  | None =>
      match decision_function p with
      | Some g => py_getitem (g x) 0
      | None => None
      end
  end.

(** The line stream mode prints for a decoded row: identifier, label of
    the row's prediction and, with [--scores], the row's scores. *)
Definition stream_line {X : Type} (args : Args) (p : Pipeline X)
    (row : pyval * X) : string :=
  (py_str (fst row) ++ tab ++
   label_text args (hd 0 (predict p (snd row))) ++
   (if scores args then
      tab ++ match row_scores p (snd row) with
             | Some r => score_str r
             | None => ""
             end ++ newline
    else newline))%string.

(** What [stream_predictor] runs for one named input file, the vocabulary
    coming from [path]. *)
Definition file_run {X I V R : Type} (w : World X I V R) (args : Args)
    (path file : string) : Py unit :=
  predict_from w
    (row_generator_from_file w file (if csv args then "excel" else "plain")
       (encoding args))
    (set_offsets args (fix_column_offset w (annotate args))
       (fix_column_offset w (feature args)))
    (load_vocabulary w path).

(** * Properties *)

(** ** Runs: traces and outcomes of composed computations *)

Lemma trace_bind {A B : Type} (m : Py A) (k : A -> Py B) :
  trace (bind m k) =
  trace m ++ match outcome m with
             | inr a => trace (k a)
             | inl _ => []
             end.
Proof.
  destruct m as [t [e | a]]; simpl.
  - now rewrite app_nil_r.
  - now destruct (k a).
Qed.

Lemma outcome_bind {A B : Type} (m : Py A) (k : A -> Py B) :
  outcome (bind m k) =
  match outcome m with
  | inr a => outcome (k a)
  | inl e => inl e
  end.
Proof.
  destruct m as [t [e | a]]; simpl; [reflexivity | now destruct (k a)].
Qed.

Lemma trace_emit_bind {B : Type} (ev : event) (k : unit -> Py B) :
  trace (bind (emit ev) k) = ev :: trace (k tt).
Proof. rewrite trace_bind. reflexivity. Qed.

Lemma outcome_emit_bind {B : Type} (ev : event) (k : unit -> Py B) :
  outcome (bind (emit ev) k) = outcome (k tt).
Proof. rewrite outcome_bind. reflexivity. Qed.

Lemma run_eta {A : Type} (m : Py A) : m = (trace m, outcome m).
Proof. now destruct m. Qed.

Lemma loads_app (t u : list event) : loads (t ++ u) = (loads t + loads u)%nat.
Proof.
  induction t as [| ev t IH]; simpl; [reflexivity |].
  destruct ev; simpl; rewrite IH; reflexivity.
Qed.

Lemma printed_app (t u : list event) : printed (t ++ u) = printed t ++ printed u.
Proof.
  induction t as [| ev t IH]; simpl; [reflexivity |].
  destruct ev; simpl; rewrite IH; reflexivity.
Qed.

Lemma score_calls_app (t u : list event) :
  score_calls (t ++ u) = score_calls t ++ score_calls u.
Proof.
  induction t as [| ev t IH]; simpl; [reflexivity |].
  destruct ev as [ | | | [ | | ] | ]; simpl; rewrite IH; reflexivity.
Qed.

Lemma load_free_bind {A B : Type} (m : Py A) (k : A -> Py B) :
  load_free m -> (forall a, load_free (k a)) -> load_free (bind m k).
Proof.
  unfold load_free; intros Hm Hk.
  rewrite trace_bind, loads_app, Hm.
  destruct (outcome m); [reflexivity | apply Hk].
Qed.

Lemma load_free_catch {A : Type} (m : Py A) (h : Py A) :
  load_free m -> load_free h -> load_free (except_AttributeError m h).
Proof.
  unfold load_free; intros Hm Hh.
  destruct m as [t [e | a]]; simpl in *; [| assumption].
  destruct e; simpl; try (rewrite app_nil_r; assumption).
  destruct h as [t' r]; simpl in *. now rewrite loads_app, Hm, Hh.
Qed.

Lemma load_free_make_label (args : Args) (i : Z) : load_free (make_label args i).
Proof.
  unfold make_label, load_free.
  destruct (truthy (label args)); [| reflexivity].
  destruct (i <? _); [| reflexivity].
  destruct (py_getitem _ _); reflexivity.
Qed.

Lemma load_free_first_row (rows : list score_row) : load_free (first_row rows).
Proof. unfold first_row, load_free. destruct (py_getitem _ _); reflexivity. Qed.

Lemma load_free_call_predict_proba {X : Type} (p : Pipeline X) (x : X) :
  load_free (call_predict_proba p x).
Proof. unfold call_predict_proba, load_free. destruct (predict_proba p); reflexivity. Qed.

Lemma load_free_call_decision_function {X : Type} (p : Pipeline X) (x : X) :
  load_free (call_decision_function p x).
Proof.
  unfold call_decision_function, load_free.
  destruct (decision_function p); reflexivity.
Qed.

Create HintDb load_free.
#[local] Hint Resolve load_free_make_label load_free_first_row
  load_free_call_predict_proba load_free_call_decision_function : load_free.

Ltac load_free_step :=
  first [ solve [ auto with load_free ]
        | reflexivity
        | apply load_free_catch
        | apply load_free_bind; [| intros ] ].

Lemma load_free_append_scores {X : Type} (p : Pipeline X) (x : X) (b : bool) :
  load_free (append_scores p x b).
Proof.
  unfold append_scores.
  apply load_free_bind.
  - destruct b; repeat load_free_step.
  - intros [s b']. repeat load_free_step.
Qed.

Lemma load_free_for_each {A : Type} (xs : list A) (body : A -> Py unit) :
  (forall x, load_free (body x)) -> load_free (for_each xs body).
Proof.
  intros Hbody. induction xs as [| x xs IH]; simpl; [reflexivity |].
  apply load_free_bind; [apply Hbody | intros _; exact IH].
Qed.

(** ** Identifier column (stream mode) *)

(** C1, as stated, fails: with [--no_id] and [--id_second] both set the
    identifier column is [None], not index 1. *)
Lemma find_id_col_no_id_overrides_id_second :
  id_second (Demo.id_flags true true false) = true /\
  find_id_col (Demo.id_flags true true false) = None /\
  find_id_col (Demo.id_flags true true false) <> Some 1.
Proof. repeat split; discriminate. Qed.

(** C1, amended: the flags are resolved in the order no_id, id_second,
    id_last, default; [--id_second] gives column 1 whatever [--id_last]
    says, provided [--no_id] is not set, and [--no_id] gives no identifier
    column whatever the other two say. *)
Theorem find_id_col_precedence (args : Args) :
  (no_id args = true -> find_id_col args = None) /\
  (no_id args = false -> id_second args = true ->
     find_id_col args = Some 1) /\
  (no_id args = false -> id_second args = false -> id_last args = true ->
     find_id_col args = Some (-1)) /\
  (no_id args = false -> id_second args = false -> id_last args = false ->
     find_id_col args = Some 0).
Proof.
  unfold find_id_col.
  repeat split; intros; repeat match goal with H : _ = _ |- _ => rewrite H end;
    reflexivity.
Qed.

(** ** Loading the pipeline *)

Section Loading.
Context {X I V R : Type} (w : World X I V R).

Lemma load_free_predict_row (args : Args) (p : Pipeline X) (b : bool)
    (row : pyval * X) :
  load_free (predict_row args p b row).
Proof.
  destruct row as [text_id features]. unfold predict_row.
  apply load_free_bind; [reflexivity | intros prediction].
  apply load_free_bind; [destruct (len prediction =? 1); reflexivity | intros _].
  destruct (py_getitem prediction 0); [| reflexivity].
  apply load_free_bind; [apply load_free_make_label | intros l].
  apply load_free_bind; [reflexivity | intros _].
  destruct (scores args); [| reflexivity].
  apply load_free_bind; [apply load_free_append_scores | reflexivity].
Qed.

(** Every call of [predict_from] deserializes the pipeline, once. *)
Lemma loads_predict_from (rows : R) (args : Args) (vocab : V) :
  loads (trace (predict_from w rows args vocab)) = 1%nat.
Proof.
  unfold predict_from.
  rewrite trace_bind, loads_app. simpl.
  apply f_equal.
  apply load_free_for_each. intros row. apply load_free_predict_row.
Qed.

Lemma loads_for_each_once {A : Type} (xs : list A) (body : A -> Py unit) :
  (forall x, loads (trace (body x)) = 1%nat) ->
  (loads (trace (for_each xs body)) <= List.length xs)%nat /\
  (outcome (for_each xs body) = inr tt ->
   loads (trace (for_each xs body)) = List.length xs).
Proof.
  intros Hbody. induction xs as [| x xs [IHle IHeq]]; simpl.
  - split; [apply Nat.le_refl | reflexivity].
  - rewrite trace_bind, outcome_bind, loads_app, Hbody.
    destruct (outcome (body x)) as [e | []].
    + split; [simpl; lia | discriminate].
    + split; [simpl; lia | intros H; rewrite (IHeq H); reflexivity].
Qed.

Lemma loads_report_labels (preds : list Z) (ids : list pyval) (args : Args) :
  load_free (report_labels preds ids (make_label args)).
Proof.
  apply load_free_for_each. intros [text_id prediction].
  apply load_free_bind; [apply load_free_make_label | reflexivity].
Qed.

Lemma loads_report_with_scores (preds : list Z) (sc : list score_row)
    (ids : list pyval) (args : Args) :
  load_free (report_with_scores preds sc ids (make_label args)).
Proof.
  apply load_free_for_each. intros [text_id [prediction i_scores]].
  apply load_free_bind; [apply load_free_make_label | reflexivity].
Qed.

Lemma load_free_get_scores (p : Pipeline X) (d : Data I) :
  load_free (get_scores w p d).
Proof. apply load_free_catch; auto with load_free. Qed.

End Loading.

Section LoadCount.
Context {X I V R : Type} (w : World X I V R).

Lemma loads_batch_predictor (args : Args) :
  (loads (trace (batch_predictor w args)) <= 1)%nat /\
  (outcome (batch_predictor w args) = inr tt ->
   loads (trace (batch_predictor w args)) = 1%nat).
Proof.
  unfold batch_predictor.
  destruct (truthy (index args)); simpl negb; cbv iota;
    [| split; [simpl; lia | discriminate]].
  destruct (1 <? len (seq_of (index args)));
    [split; [simpl; lia | discriminate] |].
  destruct (py_getitem (seq_of (index args)) 0) as [path |];
    [| split; [simpl; lia | discriminate]].
  match goal with
  | |- (loads (trace ?m) <= 1)%nat /\ _ =>
      assert (Hone : loads (trace m) = 1%nat)
  end.
  2: { split; [rewrite Hone; apply Nat.le_refl | intros _; exact Hone]. }
  rewrite !trace_emit_bind. cbn [loads]. apply f_equal.
  apply load_free_bind; [reflexivity | intros predictions].
  apply load_free_bind.
  - destruct (scores args); [| reflexivity].
    apply load_free_bind; [apply load_free_get_scores | reflexivity].
  - intros sc. destruct (scores args);
      [apply loads_report_with_scores | apply loads_report_labels].
Qed.

Lemma loads_stream_predictor (args : Args) :
  (loads (trace (stream_predictor w args)) <=
   if truthy (index args) then List.length (seq_of (index args)) else 1)%nat /\
  (outcome (stream_predictor w args) = inr tt ->
   loads (trace (stream_predictor w args)) =
   if truthy (index args) then List.length (seq_of (index args)) else 1%nat).
Proof.
  unfold stream_predictor.
  destruct (vocabulary args) as [path |].
  2: { split; [cbn; destruct (truthy (index args)); lia | discriminate]. }
  rewrite trace_emit_bind, outcome_emit_bind. cbn [loads].
  cbn [index set_offsets encoding].
  destruct (truthy (index args)); cbn [negb].
  - apply loads_for_each_once. intros file. apply loads_predict_from.
  - rewrite loads_predict_from. split; [apply Nat.le_refl | reflexivity].
Qed.

(** C2, amended: the pipeline is deserialized once per input source.  No
    invocation loads it more often than it has input sources, and an
    invocation that completes loads it exactly that often: once in batch
    mode, once in stream mode on standard input, and once per file in
    stream mode on named files. *)
Theorem pipeline_loaded_once_per_source (args : Args) :
  (loads (trace (predict_labels w args)) <= input_sources args)%nat /\
  (outcome (predict_labels w args) = inr tt ->
   loads (trace (predict_labels w args)) = input_sources args).
Proof.
  unfold predict_labels, input_sources.
  destruct (text args); cbn [andb].
  - apply loads_stream_predictor.
  - apply loads_batch_predictor.
Qed.

End LoadCount.

(** C2, as stated, fails: a stream-mode invocation over two files runs to
    completion and deserializes the pipeline twice. *)
Lemma two_files_load_the_pipeline_twice :
  outcome (predict_labels Demo.world
             (Demo.cmdline true (Some ["f"; "g"]) "svm" true None (Some "v")))
  = inr tt /\
  loads (trace (predict_labels Demo.world
                  (Demo.cmdline true (Some ["f"; "g"]) "svm" true None
                     (Some "v"))))
  = 2%nat.
Proof. split; vm_compute; reflexivity. Qed.

(** ** Usage errors *)

(** C6: a batch invocation with no index file, or with more than one, and
    a stream invocation with no vocabulary each end in a [ValueError]
    before anything is loaded or printed, and the driver's entry point
    hands that exception to its caller. *)
Theorem usage_errors_are_value_errors
    {X I V R : Type} (w : World X I V R) (args : Args) :
  (text args = false -> truthy (index args) = false ->
   predict_labels w args =
   ([], inl (ValueError "missing input data file (inverted index)"))) /\
  (text args = false -> 1 < len (seq_of (index args)) ->
   predict_labels w args =
   ([], inl (ValueError "more than one input data file (inverted index)"))) /\
  (text args = true -> vocabulary args = None ->
   predict_labels w args =
   ([], inl (ValueError
               "missing required option for text input: --vocabulary VOCAB"))).
Proof.
  unfold predict_labels. repeat split.
  - intros Ht Hi. rewrite Ht. unfold batch_predictor. rewrite Hi. reflexivity.
  - intros Ht Hn. rewrite Ht. unfold batch_predictor.
    assert (Hi : truthy (index args) = true).
    { destruct (index args) as [[| f fs] |]; cbn in Hn; try lia; reflexivity. }
    rewrite Hi. apply Z.ltb_lt in Hn. cbn [negb]. rewrite Hn. reflexivity.
  - intros Ht Hv. rewrite Ht. unfold stream_predictor. rewrite Hv. reflexivity.
Qed.

(** ** Scores in batch mode *)

(** C5: [get_scores] tries [predict_proba] and uses its result; when the
    pipeline lacks it, [decision_function] is called and its result is
    returned, with no exception left.  Only a pipeline with neither method
    fails. *)
Theorem get_scores_falls_back
    {X I V R : Type} (w : World X I V R) (p : Pipeline X) (d : Data I) :
  match predict_proba p, decision_function p with
  | Some f, _ =>
      get_scores w p d =
      ([Invoke PredictProba], inr (f (tocsr w (data_index d))))
  | None, Some g =>
      get_scores w p d =
      ([Invoke PredictProba; Invoke DecisionFunction],
       inr (g (tocsr w (data_index d))))
  | None, None =>
      get_scores w p d =
      ([Invoke PredictProba; Invoke DecisionFunction],
       inl (AttributeError "decision_function"))
  end.
Proof.
  unfold get_scores, call_predict_proba, call_decision_function.
  destruct (predict_proba p) as [f |]; [reflexivity |].
  destruct (decision_function p) as [g |]; reflexivity.
Qed.

(** ** Text identifiers in batch mode *)

Lemma length_range1 (n : nat) : List.length (range1 n) = n.
Proof. unfold range1. now rewrite length_map, length_seq. Qed.

Lemma nth_error_range1 (n k : nat) :
  (k < n)%nat -> nth_error (range1 n) k = Some (Z.of_nat k + 1).
Proof.
  intros Hk. unfold range1.
  rewrite nth_error_map, nth_error_seq.
  apply Nat.ltb_lt in Hk. rewrite Hk. cbn. f_equal. lia.
Qed.

(** C10: an empty identifier sequence is falsy, so it is replaced by the
    1-based counter exactly as a missing one is: in both cases the
    identifiers are 1, 2, ..., N for the N that [get_n_rows] reports, while
    a non-empty sequence is used as it is. *)
Theorem empty_text_ids_are_synthesized
    {X I V R : Type} (w : World X I V R) (idx : I) :
  let d_empty := {| data_index := idx; text_ids := Some [] |} in
  let d_none := {| data_index := idx; text_ids := None |} in
  get_or_make_text_ids w d_empty = map VInt (range1 (get_n_rows w d_empty)) /\
  get_or_make_text_ids w d_none = map VInt (range1 (get_n_rows w d_none)) /\
  (forall k, (k < get_n_rows w d_empty)%nat ->
     nth_error (get_or_make_text_ids w d_empty) k =
     Some (VInt (Z.of_nat k + 1))) /\
  List.length (get_or_make_text_ids w d_empty) = get_n_rows w d_empty /\
  (forall id ids,
     get_or_make_text_ids w {| data_index := idx; text_ids := Some (id :: ids) |}
     = id :: ids).
Proof.
  cbv zeta. repeat split.
  - intros k Hk. unfold get_or_make_text_ids. cbn [truthy text_ids].
    rewrite nth_error_map, nth_error_range1 by exact Hk. reflexivity.
  - unfold get_or_make_text_ids. cbn [truthy text_ids].
    now rewrite length_map, length_range1.
Qed.

(** ** The label resolver *)

Lemma py_getitem_front {A : Type} (l : list A) (i : Z) :
  0 <= i < len l -> py_getitem l i = nth_error l (Z.to_nat i).
Proof.
  intros [H0 H1]. unfold py_getitem.
  apply Z.leb_le in H0. apply Z.ltb_lt in H1. now rewrite H0, H1.
Qed.

Lemma nth_error_in_range {A : Type} (l : list A) (n : nat) :
  (n < List.length l)%nat -> exists a, nth_error l n = Some a.
Proof.
  intros H. destruct (nth_error l n) as [a |] eqn:E; [now exists a |].
  apply nth_error_None in E. lia.
Qed.

(** The resolver has no effect of its own. *)
Lemma make_label_pure (args : Args) (i : Z) :
  make_label args i = ([], outcome (make_label args i)).
Proof.
  unfold make_label.
  destruct (truthy (label args)); [| reflexivity].
  destruct (i <? _); [| reflexivity].
  destruct (py_getitem _ _); reflexivity.
Qed.

(** C3, as stated, fails on negative indices: [-1] is below [len(L)], so
    the resolver indexes the list, from its end, instead of passing the
    index through; and [-3] on a two-element list raises [IndexError]. *)
Lemma make_label_negative_index :
  make_label (Demo.cmdline false None "m" false (Some ["neg"; "pos"]) None)
    (-1) = ([], inr (VStr "pos")) /\
  make_label (Demo.cmdline false None "m" false (Some ["neg"; "pos"]) None)
    (-3) = ([], inl IndexError).
Proof. split; reflexivity. Qed.

(** C3, amended: for every label-name list [L] and every index [i >= 0]
    the resolver returns without an error: the name [L[i]] when
    [i < len(L)], and the index itself otherwise (as the integer [i] when
    [L] is not empty, as [str(i)], which prints the same, when it is). *)
Theorem make_label_nonnegative (args : Args) (L : list string) (i : Z) :
  label args = Some L ->
  0 <= i ->
  exists v,
    make_label args i = ([], inr v) /\
    (i < len L -> nth_error L (Z.to_nat i) = Some (py_str v) /\
                  v = VStr (py_str v)) /\
    (len L <= i -> py_str v = str_int i /\ (L <> [] -> v = VInt i)).
Proof.
  intros HL Hi. unfold make_label. rewrite HL. cbn [seq_of].
  destruct L as [| name0 L'].
  - cbn [truthy]. exists (VStr (str_int i)). cbn [len List.length Z.of_nat].
    split; [reflexivity | split].
    + intros Hneg. lia.
    + intros _. split; [reflexivity | intros Hne; now elim Hne].
  - cbn [truthy]. set (L := name0 :: L') in *.
    destruct (i <? len L) eqn:Hlt.
    + apply Z.ltb_lt in Hlt.
      rewrite py_getitem_front by lia.
      destruct (nth_error_in_range L (Z.to_nat i)) as [name Hname].
      { unfold len in Hlt. lia. }
      rewrite Hname. exists (VStr name). cbn [py_str].
      split; [reflexivity | split].
      * intros _. split; reflexivity.
      * intros Hge. lia.
    + apply Z.ltb_ge in Hlt. exists (VInt i). cbn [py_str].
      split; [reflexivity | split].
      * intros Hlt'. lia.
      * intros _. split; reflexivity.
Qed.

Lemma make_label_nonnegative_witness :
  exists v,
    make_label (Demo.cmdline false None "m" false (Some ["neg"; "pos"]) None) 1
    = ([], inr v) /\
    (1 < len ["neg"; "pos"] ->
       nth_error ["neg"; "pos"] (Z.to_nat 1) = Some (py_str v) /\
       v = VStr (py_str v)) /\
    (len ["neg"; "pos"] <= 1 ->
       py_str v = str_int 1 /\ (["neg"; "pos"] <> [] -> v = VInt 1)).
Proof.
  apply (make_label_nonnegative
           (Demo.cmdline false None "m" false (Some ["neg"; "pos"]) None)
           ["neg"; "pos"] 1); [reflexivity | lia].
Defined.

(** ** Batch output *)

Lemma bind_ok {A B : Type} (t : list event) (a : A) (k : A -> Py B) :
  bind ((t, inr a) : Py A) k = (t ++ trace (k a), outcome (k a)).
Proof. simpl. now destruct (k a). Qed.

Lemma append_assoc (a b c : string) :
  ((a ++ b) ++ c = a ++ (b ++ c))%string.
Proof. induction a as [| ch a IH]; simpl; [reflexivity | now rewrite IH]. Qed.

Lemma for_each_print_lines {A : Type} (xs : list A) (body : A -> Py unit)
    (line : A -> string) :
  (forall x, In x xs -> body x = ([Print (line x)], inr tt)) ->
  for_each xs body = (map (fun x => Print (line x)) xs, inr tt).
Proof.
  induction xs as [| x xs IH]; intros Hbody; [reflexivity |].
  cbn [for_each]. rewrite (Hbody x (or_introl eq_refl)), bind_ok.
  rewrite IH by (intros y Hy; apply Hbody; now right). reflexivity.
Qed.

Lemma printed_map_Print {A : Type} (line : A -> string) (xs : list A) :
  printed (map (fun x => Print (line x)) xs) = map line xs.
Proof. induction xs as [| x xs IH]; simpl; [reflexivity | now rewrite IH]. Qed.

Lemma nth_error_combine {A B : Type} (l1 : list A) (l2 : list B) (k : nat) :
  nth_error (combine l1 l2) k =
  match nth_error l1 k, nth_error l2 k with
  | Some a, Some b => Some (a, b)
  | _, _ => None
  end.
Proof.
  revert l2 k. induction l1 as [| a l1 IH]; intros [| b l2] [| k]; simpl;
    try reflexivity.
  - now destruct (nth_error l1 k).
  - apply IH.
Qed.

Lemma py_getitem_back {A : Type} (l : list A) (i : Z) :
  - len l <= i < 0 -> py_getitem l i = nth_error l (Z.to_nat (len l + i)).
Proof.
  intros [H0 H1]. unfold py_getitem.
  assert (E : (0 <=? i) = false) by (apply Z.leb_gt; lia).
  rewrite E. cbn [andb].
  apply Z.leb_le in H0. apply Z.ltb_lt in H1. now rewrite H0, H1.
Qed.

Lemma make_label_resolvable (args : Args) (p : Z) :
  resolvable args p -> exists l, make_label args p = ([], inr l).
Proof.
  unfold resolvable, make_label. intros Hres.
  destruct (truthy (label args)); [| eexists; reflexivity].
  specialize (Hres eq_refl). set (L := seq_of (label args)) in *.
  destruct (p <? len L) eqn:Hlt; [| eexists; reflexivity].
  apply Z.ltb_lt in Hlt.
  assert (Hsome : exists name, py_getitem L p = Some name).
  { destruct (Z.neg_nonneg_cases p) as [Hneg | Hpos].
    - rewrite py_getitem_back by lia.
      apply nth_error_in_range. unfold len in *. lia.
    - rewrite py_getitem_front by lia.
      apply nth_error_in_range. unfold len in *. lia. }
  destruct Hsome as [name Hname]. rewrite Hname. eexists; reflexivity.
Qed.

Lemma report_labels_run (args : Args) (preds : list Z) (ids : list pyval) :
  Forall (resolvable args) preds ->
  report_labels preds ids (make_label args) =
  (map (fun x : pyval * Z =>
          Print (py_str (fst x) ++ tab ++ label_text args (snd x) ++ newline)%string)
       (combine ids preds), inr tt).
Proof.
  intros Hres. unfold report_labels.
  apply for_each_print_lines. intros [text_id p] Hin.
  apply in_combine_r in Hin.
  rewrite Forall_forall in Hres.
  destruct (make_label_resolvable args p (Hres p Hin)) as [l Hl].
  cbn [fst snd]. unfold label_text. rewrite Hl. cbn.
  now rewrite !append_assoc.
Qed.

Lemma report_with_scores_run (args : Args) (preds : list Z)
    (sc : list score_row) (ids : list pyval) :
  Forall (resolvable args) preds ->
  report_with_scores preds sc ids (make_label args) =
  (map (fun x : pyval * (Z * score_row) =>
          Print (py_str (fst x) ++ tab ++ label_text args (fst (snd x)) ++
                 (tab ++ score_str (snd (snd x))) ++ newline)%string)
       (combine ids (combine preds sc)), inr tt).
Proof.
  intros Hres. unfold report_with_scores.
  apply for_each_print_lines. intros [text_id [p i_scores]] Hin.
  apply in_combine_r, in_combine_l in Hin.
  rewrite Forall_forall in Hres.
  destruct (make_label_resolvable args p (Hres p Hin)) as [l Hl].
  cbn [fst snd]. unfold label_text. rewrite Hl. cbn.
  rewrite !append_assoc. cbn. rewrite !append_assoc. reflexivity.
Qed.

Lemma printed_get_scores {X I V R : Type} (w : World X I V R)
    (p : Pipeline X) (d : Data I) :
  printed (trace (get_scores w p d)) = [].
Proof.
  unfold get_scores, call_predict_proba, call_decision_function.
  destruct (predict_proba p); [reflexivity |].
  destruct (decision_function p); reflexivity.
Qed.

(** C7: in batch mode, when the loaded data carries no text identifiers
    and the pipeline answers one prediction (and, with [--scores], one
    score row) per row of the N-row matrix, each of them a label the
    resolver accepts, the run completes and prints exactly N lines, in row
    order, the k-th starting with the counter k (from 1), a tab and the
    label of the k-th prediction. *)
Theorem batch_output_numbered
    {X I V R : Type} (w : World X I V R) (args : Args) (path : string) :
  index args = Some [path] ->
  truthy (text_ids (load_index w path)) = false ->
  List.length (predict (joblib_load w (model args))
                 (tocsr w (data_index (load_index w path))))
  = get_n_rows w (load_index w path) ->
  Forall (resolvable args)
    (predict (joblib_load w (model args))
       (tocsr w (data_index (load_index w path)))) ->
  (scores args = true ->
   exists sc,
     outcome (get_scores w (joblib_load w (model args)) (load_index w path))
     = inr sc /\
     List.length sc = get_n_rows w (load_index w path)) ->
  outcome (batch_predictor w args) = inr tt /\
  List.length (printed (trace (batch_predictor w args)))
  = get_n_rows w (load_index w path) /\
  forall k, (k < get_n_rows w (load_index w path))%nat ->
    exists p tail,
      nth_error (predict (joblib_load w (model args))
                   (tocsr w (data_index (load_index w path)))) k = Some p /\
      nth_error (printed (trace (batch_predictor w args))) k
      = Some (str_int (Z.of_nat k + 1) ++ tab ++ label_text args p ++
              tail ++ newline)%string /\
      (scores args = false -> tail = "").
Proof.
  intros Hindex Hids Hlen Hres Hsc.
  set (d := load_index w path) in *.
  set (pl := joblib_load w (model args)) in *.
  set (preds := predict pl (tocsr w (data_index d))) in *.
  set (N := get_n_rows w d) in *.
  assert (Hmake : get_or_make_text_ids w d = map VInt (range1 N)).
  { unfold get_or_make_text_ids. now rewrite Hids. }
  unfold batch_predictor. rewrite Hindex.
  change (truthy (Some [path])) with true.
  change (seq_of (Some [path])) with [path].
  change (1 <? len [path]) with false.
  change (py_getitem [path] 0) with (Some path).
  cbn [negb]. cbv iota. fold d. fold pl.
  rewrite !trace_emit_bind, !outcome_emit_bind.
  change (call_predict pl (tocsr w (data_index d)))
    with (([Invoke Predict], inr preds) : Py (list Z)).
  rewrite bind_ok. cbn [trace outcome fst snd].
  rewrite Hmake.
  destruct (scores args) eqn:Escores.
  - destruct (Hsc eq_refl) as (sc & Hout & Hsclen).
    rewrite !trace_bind, !outcome_bind, Hout.
    change (outcome (ret (Some sc))) with (@inr exn _ (Some sc)).
    change (trace (ret (Some sc))) with (@nil event).
    cbv iota. cbn [seq_of].
    rewrite report_with_scores_run by exact Hres.
    cbn [trace outcome fst snd].
    change (LoadIndex path :: LoadModel (model args) :: ?t)
      with ([LoadIndex path; LoadModel (model args)] ++ t).
    rewrite !printed_app, printed_get_scores. cbn [app printed].
    rewrite printed_map_Print.
    split; [reflexivity | split].
    + rewrite length_map, !length_combine, length_map, length_range1.
      fold N. lia.
    + intros k Hk.
      destruct (nth_error_in_range preds k) as [p Hp]; [lia |].
      destruct (nth_error_in_range sc k) as [row Hrow]; [lia |].
      exists p, (tab ++ score_str row)%string.
      split; [exact Hp | split; [| discriminate]].
      rewrite nth_error_map, !nth_error_combine, nth_error_map.
      rewrite nth_error_range1 by exact Hk. rewrite Hp, Hrow. reflexivity.
  - rewrite !trace_bind, !outcome_bind.
    change (outcome (ret None)) with (@inr exn (option (list score_row)) None).
    change (trace (ret None)) with (@nil event).
    cbv iota.
    rewrite report_labels_run by exact Hres.
    cbn [trace outcome fst snd app printed].
    rewrite printed_map_Print.
    split; [reflexivity | split].
    + rewrite length_map, length_combine, length_map, length_range1.
      fold N. lia.
    + intros k Hk.
      destruct (nth_error_in_range preds k) as [p Hp]; [lia |].
      exists p, ""%string.
      split; [exact Hp | split; [| reflexivity]].
      rewrite nth_error_map, nth_error_combine, nth_error_map.
      rewrite nth_error_range1 by exact Hk. rewrite Hp. reflexivity.
Qed.

Lemma batch_output_numbered_witness :
  outcome (batch_predictor Demo.world
             (Demo.cmdline false (Some ["abc"]) "svm" true
                (Some ["neg"; "pos"]) None)) = inr tt /\
  List.length
    (printed (trace (batch_predictor Demo.world
                       (Demo.cmdline false (Some ["abc"]) "svm" true
                          (Some ["neg"; "pos"]) None)))) = 3%nat.
Proof.
  destruct (batch_output_numbered Demo.world
              (Demo.cmdline false (Some ["abc"]) "svm" true
                 (Some ["neg"; "pos"]) None) "abc") as (Hout & Hlen & _).
  - reflexivity.
  - reflexivity.
  - reflexivity.
  - repeat constructor; intros _; vm_compute; discriminate.
  - intros _. eexists. split; reflexivity.
  - split; [exact Hout | exact Hlen].
Defined.

(** The end-to-end scenario of the specification: batch mode, no scores,
    no labels, a three-row index without text identifiers. *)
Example batch_three_rows :
  stdout (trace (predict_labels Demo.world
                   (Demo.cmdline false (Some ["abc"]) "proba" false None None)))
  = ("1" ++ tab ++ "1" ++ newline ++
     "2" ++ tab ++ "1" ++ newline ++
     "3" ++ tab ++ "1" ++ newline)%string.
Proof. reflexivity. Qed.

(** ** Stream mode: scoring row by row *)

Lemma append_scores_attempts {X : Type} (p : Pipeline X) (x : X) (r : bool) :
  outcome (append_scores p x false) = inr r ->
  score_calls (trace (append_scores p x false)) = attempts p /\
  r = match predict_proba p with Some _ => false | None => true end.
Proof.
  unfold append_scores, attempts, call_predict_proba, call_decision_function,
    first_row.
  destruct (predict_proba p) as [f |].
  - destruct (py_getitem (f x) 0) eqn:Eg; cbn; rewrite Eg; cbn; intros H;
      [inversion H; split; reflexivity | discriminate H].
  - destruct (decision_function p) as [g |]; [| discriminate].
    destruct (py_getitem (g x) 0) eqn:Eg; cbn; rewrite Eg; cbn; intros H;
      [inversion H; split; reflexivity | discriminate H].
Qed.

Lemma bind_ret {A B : Type} (a : A) (k : A -> Py B) : bind (ret a) k = k a.
Proof. simpl. now destruct (k a). Qed.

Lemma score_calls_trace_bind {A B : Type} (m : Py A) (k : A -> Py B) :
  score_calls (trace (bind m k)) =
  score_calls (trace m) ++ match outcome m with
                           | inr a => score_calls (trace (k a))
                           | inl _ => []
                           end.
Proof. rewrite trace_bind, score_calls_app. now destruct (outcome m). Qed.

Lemma predict_row_score_calls {X : Type} (args : Args) (pl : Pipeline X)
    (row : pyval * X) :
  scores args = true ->
  outcome (predict_row args pl false row) = inr tt ->
  score_calls (trace (predict_row args pl false row)) = attempts pl.
Proof.
  intros Hscores. destruct row as [text_id features]. unfold predict_row.
  change (call_predict pl features)
    with (([Invoke Predict], inr (predict pl features)) : Py (list Z)).
  rewrite bind_ok. cbn [trace outcome fst snd].
  destruct (len (predict pl features) =? 1); [| discriminate].
  rewrite bind_ret.
  destruct (py_getitem (predict pl features) 0) as [p |]; [| discriminate].
  rewrite make_label_pure.
  destruct (outcome (make_label args p)) as [e | l]; [discriminate |].
  rewrite bind_ok. unfold print, emit. rewrite bind_ok. rewrite Hscores.
  cbn [trace outcome fst snd].
  rewrite outcome_bind, !score_calls_app, score_calls_trace_bind.
  destruct (outcome (append_scores pl features false)) as [e | r] eqn:Eout;
    [discriminate |].
  intros _. destruct (append_scores_attempts pl features r Eout) as [Hc _].
  rewrite Hc. cbn. now rewrite app_nil_r.
Qed.

Lemma for_each_score_calls {A : Type} (xs : list A) (body : A -> Py unit)
    (calls : list method) :
  (forall x, outcome (body x) = inr tt -> score_calls (trace (body x)) = calls) ->
  outcome (for_each xs body) = inr tt ->
  score_calls (trace (for_each xs body)) = flat_map (fun _ => calls) xs.
Proof.
  intros Hbody. induction xs as [| x xs IH]; [reflexivity |].
  cbn [for_each flat_map].
  rewrite outcome_bind, score_calls_trace_bind.
  destruct (outcome (body x)) as [e | []] eqn:Ex; [discriminate |].
  intros Hrest. rewrite (Hbody x Ex), (IH Hrest). reflexivity.
Qed.

(** C4: in stream mode with scores, a run that completes makes, for every
    row in turn, the same scoring attempts: [predict_proba] first, then
    [decision_function] within the same row when the pipeline lacks
    [predict_proba].  What [append_scores] learns (its own [no_proba]
    becomes true after a fallback) does not reach the next row, which
    starts from [no_proba = False] again. *)
Theorem predict_proba_retried_every_row
    {X I V R : Type} (w : World X I V R) (rows : R) (args : Args) (vocab : V) :
  scores args = true ->
  outcome (predict_from w rows args vocab) = inr tt ->
  score_calls (trace (predict_from w rows args vocab)) =
  flat_map (fun _ => attempts (joblib_load w (model args)))
    (FeatureEncoder w (transform_input w rows args) vocab (find_id_col args))
  /\
  (forall x r,
     outcome (append_scores (joblib_load w (model args)) x false) = inr r ->
     r = match predict_proba (joblib_load w (model args)) with
         | Some _ => false
         | None => true
         end).
Proof.
  intros Hscores Hout. split.
  - unfold predict_from in *.
    rewrite trace_emit_bind. rewrite outcome_emit_bind in Hout.
    cbn [score_calls].
    apply for_each_score_calls; [| exact Hout].
    intros row Hrow. now apply predict_row_score_calls.
  - intros x r Hr. now destruct (append_scores_attempts _ x r Hr).
Qed.

Lemma predict_proba_retried_every_row_witness :
  score_calls
    (trace (predict_from Demo.world [(VStr "a", 1%nat); (VStr "b", 1%nat)]
              (Demo.cmdline true None "svm" true None (Some "v")) tt))
  = [PredictProba; DecisionFunction; PredictProba; DecisionFunction].
Proof.
  apply (predict_proba_retried_every_row Demo.world
           [(VStr "a", 1%nat); (VStr "b", 1%nat)]
           (Demo.cmdline true None "svm" true None (Some "v")) tt);
    reflexivity.
Defined.

(** ** Stream mode: the single-prediction assertion *)

Lemma assertion_free_bind {A B : Type} (m : Py A) (k : A -> Py B) :
  assertion_free m -> (forall a, assertion_free (k a)) ->
  assertion_free (bind m k).
Proof.
  unfold assertion_free. intros Hm Hk msg. rewrite outcome_bind.
  destruct (outcome m) as [e | a] eqn:E; [| apply Hk].
  intros H. apply (Hm msg). now inversion H.
Qed.

Lemma assertion_free_ok {A : Type} (t : list event) (a : A) :
  assertion_free ((t, inr a) : Py A).
Proof. intros msg. discriminate. Qed.

Lemma assertion_free_prefix {A : Type} (t : list event) (m : Py A) :
  assertion_free m -> assertion_free ((t ++ trace m, outcome m) : Py A).
Proof. intros Hm msg. apply Hm. Qed.

Lemma assertion_free_make_label (args : Args) (i : Z) :
  assertion_free (make_label args i).
Proof.
  intros msg. unfold make_label.
  destruct (truthy (label args)); [| discriminate].
  destruct (i <? _); [| discriminate].
  destruct (py_getitem _ _); discriminate.
Qed.

Lemma assertion_free_append_scores {X : Type} (p : Pipeline X) (x : X)
    (b : bool) :
  assertion_free (append_scores p x b).
Proof.
  intros msg.
  unfold append_scores, call_predict_proba, call_decision_function, first_row.
  destruct b.
  - destruct (decision_function p) as [g |]; [| discriminate].
    destruct (py_getitem (g x) 0) eqn:Eg; cbn; rewrite Eg; discriminate.
  - destruct (predict_proba p) as [f |].
    + destruct (py_getitem (f x) 0) eqn:Eg; cbn; rewrite Eg; discriminate.
    + destruct (decision_function p) as [g |]; [| discriminate].
      destruct (py_getitem (g x) 0) eqn:Eg; cbn; rewrite Eg; discriminate.
Qed.

Lemma assertion_free_for_each {A : Type} (xs : list A) (body : A -> Py unit) :
  (forall x, In x xs -> assertion_free (body x)) ->
  assertion_free (for_each xs body).
Proof.
  induction xs as [| x xs IH]; intros Hbody; [apply assertion_free_ok |].
  cbn [for_each]. apply assertion_free_bind.
  - apply Hbody. now left.
  - intros _. apply IH. intros y Hy. apply Hbody. now right.
Qed.

Lemma for_each_app {A : Type} (xs ys : list A) (body : A -> Py unit) :
  for_each (xs ++ ys) body = (for_each xs body ;; for_each ys body).
Proof.
  induction xs as [| x xs IH]; cbn [for_each app].
  - now rewrite bind_ret.
  - rewrite IH. destruct (body x) as [t [e | []]]; [reflexivity |].
    rewrite !bind_ok.
    rewrite trace_bind, outcome_bind.
    destruct (for_each xs body) as [t' [e' | []]]; cbn.
    + now rewrite app_nil_r.
    + destruct (for_each ys body) as [t'' r'']. cbn. now rewrite app_assoc.
Qed.

(** A row whose prediction is not a single one stops at the assertion,
    right after [predict]: nothing is printed for it. *)
Lemma predict_row_bad_shape {X : Type} (args : Args) (pl : Pipeline X)
    (b : bool) (text_id : pyval) (features : X) :
  List.length (predict pl features) <> 1%nat ->
  predict_row args pl b (text_id, features) =
  ([Invoke Predict],
   inl (AssertionError
          ("not a single prediction: " ++ shape_str (predict pl features))%string)).
Proof.
  intros Hlen. unfold predict_row.
  change (call_predict pl features)
    with (([Invoke Predict], inr (predict pl features)) : Py (list Z)).
  rewrite bind_ok.
  assert (E : (len (predict pl features) =? 1) = false).
  { apply Z.eqb_neq. unfold len. lia. }
  rewrite E. reflexivity.
Qed.

Lemma predict_row_single {X : Type} (args : Args) (pl : Pipeline X)
    (b : bool) (text_id : pyval) (features : X) :
  List.length (predict pl features) = 1%nat ->
  assertion_free (predict_row args pl b (text_id, features)).
Proof.
  intros Hlen. unfold predict_row.
  change (call_predict pl features)
    with (([Invoke Predict], inr (predict pl features)) : Py (list Z)).
  rewrite bind_ok. apply assertion_free_prefix.
  unfold len. rewrite Hlen. cbn [Z.of_nat Pos.of_succ_nat Z.eqb Pos.eqb].
  rewrite bind_ret.
  destruct (py_getitem (predict pl features) 0) as [p |];
    [| intros msg; discriminate].
  apply assertion_free_bind; [apply assertion_free_make_label | intros l].
  apply assertion_free_bind; [apply assertion_free_ok | intros _].
  destruct (scores args); [| apply assertion_free_ok].
  apply assertion_free_bind;
    [apply assertion_free_append_scores | intros r; apply assertion_free_ok].
Qed.

(** C8: in stream mode, the first decoded row for which [predict] does not
    answer exactly one prediction ends the run in an [AssertionError]
    carrying the shape, before anything is printed for that row and
    without the later rows being touched; when [predict] answers exactly
    one prediction for every row, no run ends in an [AssertionError]. *)
Theorem single_prediction_asserted
    {X I V R : Type} (w : World X I V R) (rows : R) (args : Args) (vocab : V) :
  let stream :=
    FeatureEncoder w (transform_input w rows args) vocab (find_id_col args) in
  let pl := joblib_load w (model args) in
  (forall pre text_id features post,
     stream = pre ++ (text_id, features) :: post ->
     outcome (for_each pre (predict_row args pl false)) = inr tt ->
     List.length (predict pl features) <> 1%nat ->
     outcome (predict_from w rows args vocab) =
     inl (AssertionError
            ("not a single prediction: " ++ shape_str (predict pl features))%string)
     /\
     printed (trace (predict_from w rows args vocab)) =
     printed (trace (for_each pre (predict_row args pl false)))) /\
  ((forall text_id features,
      In (text_id, features) stream ->
      List.length (predict pl features) = 1%nat) ->
   forall msg,
     outcome (predict_from w rows args vocab) <> inl (AssertionError msg)).
Proof.
  cbv zeta. split.
  - intros pre text_id features post Hstream Hpre Hbad.
    unfold predict_from.
    rewrite trace_emit_bind, outcome_emit_bind, Hstream.
    rewrite for_each_app. cbn [for_each].
    rewrite (predict_row_bad_shape args _ false text_id features Hbad).
    rewrite (run_eta (for_each pre _)), Hpre, bind_ok.
    cbn [outcome trace fst snd printed].
    split; [reflexivity |].
    rewrite printed_app. cbn. now rewrite app_nil_r.
  - intros Hsingle. unfold predict_from.
    intros msg. rewrite outcome_emit_bind. revert msg.
    apply assertion_free_for_each. intros [text_id features] Hin.
    apply predict_row_single. exact (Hsingle text_id features Hin).
Qed.

(** The scenario of the specification: a pipeline answering a shape-(2,)
    array for a row is fatal, through the driver's entry point. *)
Lemma single_prediction_asserted_witness :
  outcome (predict_from Demo.world [(VStr "a", 1%nat)]
             (Demo.cmdline true None "double" false None (Some "v")) tt)
  = inl (AssertionError "not a single prediction: (2,)") /\
  outcome (predict_labels Demo.world
             (Demo.cmdline true None "double" false None (Some "v")))
  = inl (AssertionError "not a single prediction: (2,)").
Proof.
  split; [| reflexivity].
  apply (proj1 (single_prediction_asserted Demo.world [(VStr "a", 1%nat)]
                  (Demo.cmdline true None "double" false None (Some "v")) tt)
           [] (VStr "a") 1%nat []).
  - reflexivity.
  - reflexivity.
  - vm_compute. discriminate.
Defined.

(** ** Score formatting *)

Lemma has_char_append (c : ascii) (a b : string) :
  has_char c (a ++ b) = has_char c a || has_char c b.
Proof.
  induction a as [| ch a IH]; simpl; [reflexivity |].
  now rewrite IH, orb_assoc.
Qed.

Lemma all_digits_append (a b : string) :
  all_digits (a ++ b) = all_digits a && all_digits b.
Proof.
  induction a as [| ch a IH]; simpl; [reflexivity |].
  now rewrite IH, andb_assoc.
Qed.

Lemma length_append (a b : string) :
  String.length (a ++ b) = (String.length a + String.length b)%nat.
Proof. induction a as [| ch a IH]; simpl; [reflexivity | now rewrite IH]. Qed.

Lemma is_digit_not_tab (a : ascii) :
  is_digit a = true -> Ascii.eqb a tab_char = false.
Proof.
  intros Hd. apply Ascii.eqb_neq. intros ->. discriminate Hd.
Qed.

Lemma all_digits_tab_free (s : string) :
  all_digits s = true -> has_char tab_char s = false.
Proof.
  induction s as [| a s IH]; simpl; [reflexivity |].
  intros H. apply andb_prop in H as [Ha Hs].
  now rewrite (is_digit_not_tab a Ha), (IH Hs).
Qed.

Lemma is_digit_digit (n : N) : is_digit (digit n) = true.
Proof.
  unfold is_digit, digit.
  assert (Hr : (n mod 10 < 10)%N) by (apply N.mod_upper_bound; discriminate).
  rewrite N_ascii_embedding by lia.
  apply andb_true_intro. revert Hr. generalize (n mod 10)%N. intros r Hr. split; apply N.leb_le; lia.
Qed.

Lemma all_digits_digits (width : nat) (n : N) :
  all_digits (digits width n) = true.
Proof.
  revert n. induction width as [| w IH]; intros n; simpl; [reflexivity |].
  rewrite all_digits_append, IH. simpl. now rewrite is_digit_digit.
Qed.

Lemma length_digits (width : nat) (n : N) :
  String.length (digits width n) = width.
Proof.
  revert n. induction width as [| w IH]; intros n; simpl; [reflexivity |].
  rewrite length_append, IH. simpl. lia.
Qed.

Lemma all_digits_string_of_uint (d : Decimal.uint) :
  all_digits (NilEmpty.string_of_uint d) = true.
Proof. induction d; simpl; try reflexivity; assumption. Qed.

Lemma all_digits_str_N (n : N) : all_digits (str_N n) = true.
Proof.
  unfold str_N, NilZero.string_of_uint.
  destruct (N.to_uint n) eqn:E; try reflexivity;
    rewrite <- E; apply all_digits_string_of_uint.
Qed.

Lemma split_on_tab_free (c : ascii) (s : string) :
  has_char c s = false -> split_on c s = [s].
Proof.
  induction s as [| a s IH]; simpl; [reflexivity |].
  intros H. apply orb_false_elim in H as [Ha Hs].
  now rewrite Ha, (IH Hs).
Qed.

Lemma split_on_field (c : ascii) (f rest : string) :
  has_char c f = false ->
  split_on c (f ++ String c rest) = f :: split_on c rest.
Proof.
  induction f as [| a f IH]; simpl.
  - intros _. now rewrite Ascii.eqb_refl.
  - intros H. apply orb_false_elim in H as [Ha Hf].
    now rewrite Ha, (IH Hf).
Qed.

(** Splitting a joined line at the separator gives the fields back, as long
    as no field contains the separator. *)
Lemma split_on_join (c : ascii) (fields : list string) :
  Forall (fun f => has_char c f = false) fields ->
  split_on c (join (String c "") fields) =
  match fields with
  | [] => [""%string]
  | _ => fields
  end.
Proof.
  induction fields as [| f fields IH]; intros Hfree; [reflexivity |].
  inversion Hfree as [| ? ? Hf Hrest]; subst.
  destruct fields as [| g fields].
  - simpl. now apply split_on_tab_free.
  - change (join (String c "") (f :: g :: fields))
      with (f ++ String c (join (String c "") (g :: fields)))%string.
    rewrite split_on_field by exact Hf.
    now rewrite (IH Hrest).
Qed.

Lemma scaled_den_pos (e : Z) : (0 < scaled_den e)%N.
Proof.
  unfold scaled_den. destruct (0 <=? e)%Z; [reflexivity |].
  apply N.neq_0_lt_0, N.pow_nonzero. discriminate.
Qed.

(** [round_half_even num den] is an integer nearest to [num / den]. *)
Lemma round_half_even_nearest (num den : N) :
  (0 < den)%N ->
  (2 * (round_half_even num den * den) <= 2 * num + den /\
   2 * num <= 2 * (round_half_even num den * den) + den)%N.
Proof.
  intros Hden. unfold round_half_even.
  pose proof (N.div_mod' num den) as Hdm.
  assert (Hr : (num mod den < den)%N) by (apply N.mod_upper_bound; lia).
  revert Hdm Hr. generalize (num / den)%N (num mod den)%N. intros q r Hdm Hr.
  destruct ((den <? 2 * r)%N || ((2 * r =? den)%N && N.odd q)) eqn:Eup.
  - apply orb_prop in Eup as [Hlt | Heq].
    + apply N.ltb_lt in Hlt. nia.
    + apply andb_prop in Heq as [Heq _]. apply N.eqb_eq in Heq. nia.
  - apply orb_false_elim in Eup as [Hge _]. apply N.ltb_ge in Hge. nia.
Qed.

Lemma format_score_tab_free (s : pyfloat) :
  has_char tab_char (format_score s) = false.
Proof.
  destruct s as [neg m e | neg |]; [| destruct neg; reflexivity | reflexivity].
  unfold format_score. cbv zeta.
  rewrite !has_char_append.
  rewrite (all_digits_tab_free _ (all_digits_str_N _)).
  rewrite (all_digits_tab_free _ (all_digits_digits _ _)).
  destruct neg; reflexivity.
Qed.

(** C9, as stated, fails: a positive score is rendered with a space in the
    sign position, not with a sign, and a NaN score has no decimals. *)
Lemma positive_score_has_no_sign :
  format_score Demo.half = " 0.50000000"%string /\
  String.get 0 (format_score Demo.half) = Some " "%char /\
  format_score NaN = " nan"%string.
Proof. repeat split; reflexivity. Qed.

(** C9, amended: a single float score is treated as a one-element sequence
    and gives exactly one field; the fields, one per score, are joined by
    tabs; and every finite score is rendered as a sign position (a minus
    for a negative score, a space otherwise), the integer part, a point
    and exactly eight decimal digits, the digits being those of an integer
    nearest to the score times 10^8. *)
Theorem score_fields_formatted (i_scores : score_row) :
  (forall s, i_scores = Scalar s ->
     as_tuple i_scores = [s] /\ score_str i_scores = format_score s) /\
  split_on tab_char (score_str i_scores) =
  match as_tuple i_scores with
  | [] => [""%string]
  | l => map format_score l
  end /\
  (forall neg m e, In (Finite neg m e) (as_tuple i_scores) ->
     exists q,
       (2 * (q * scaled_den e) <= 2 * scaled_num m e + scaled_den e /\
        2 * scaled_num m e <= 2 * (q * scaled_den e) + scaled_den e)%N /\
       format_score (Finite neg m e) =
       (sign_char neg ++ str_N (q / 10 ^ 8) ++ "." ++
        digits 8 (q mod 10 ^ 8))%string /\
       all_digits (str_N (q / 10 ^ 8)) = true /\
       all_digits (digits 8 (q mod 10 ^ 8)) = true /\
       String.length (digits 8 (q mod 10 ^ 8)) = 8%nat /\
       sign_char neg = (if neg then "-" else " ")%string).
Proof.
  split; [| split].
  - intros s ->. split; reflexivity.
  - unfold score_str. change tab with (String tab_char "").
    rewrite split_on_join.
    + now destruct (as_tuple i_scores).
    + apply Forall_forall. intros f Hf.
      apply in_map_iff in Hf as (s & <- & _). apply format_score_tab_free.
  - intros neg m e _.
    exists (round_half_even (scaled_num m e) (scaled_den e)).
    split; [apply round_half_even_nearest, scaled_den_pos |].
    split; [reflexivity |].
    split; [apply all_digits_str_N |].
    split; [apply all_digits_digits |].
    split; [apply length_digits | reflexivity].
Qed.

(** The end-to-end scenario of the specification: stream mode with
    [--scores] and a model whose [predict_proba] answers [0.1, 0.9]. *)
Example stream_scores_line :
  stdout (trace (predict_labels Demo.world
                   (Demo.cmdline true None "proba" true None (Some "v"))))
  = ("s1" ++ tab ++ "1" ++ tab ++ " 0.10000000" ++ tab ++ " 0.90000000" ++
     newline)%string.
Proof. reflexivity. Qed.

(** * Further properties of the driver *)

(** ** The label resolver below zero *)

(** X1: with label names given, a negative prediction is looked up from
    the end of the list, as Python indexes: [-1] is the last name, and a
    prediction below [-len(label)] raises [IndexError]. *)
Theorem make_label_negative_wraps (args : Args) (L : list string) (i : Z) :
  label args = Some L ->
  L <> [] ->
  i < 0 ->
  (- len L <= i ->
   exists name,
     nth_error L (Z.to_nat (len L + i)) = Some name /\
     make_label args i = ([], inr (VStr name))) /\
  (i < - len L -> make_label args i = ([], inl IndexError)).
Proof.
  intros HL Hne Hi. unfold make_label. rewrite HL. cbn [seq_of].
  destruct L as [| name0 L']; [now elim Hne |].
  cbn [truthy]. set (L := name0 :: L') in *.
  assert (Hlt : (i <? len L) = true) by (apply Z.ltb_lt; unfold len; lia).
  rewrite Hlt. split.
  - intros Hlow. rewrite py_getitem_back by lia.
    destruct (nth_error_in_range L (Z.to_nat (len L + i))) as [name Hname].
    { unfold len in *. lia. }
    exists name. now rewrite Hname.
  - intros Hlow. unfold py_getitem.
    assert (E1 : (0 <=? i) = false) by (apply Z.leb_gt; lia).
    assert (E2 : (- len L <=? i) = false) by (apply Z.leb_gt; lia).
    now rewrite E1, E2.
Qed.

Lemma make_label_negative_wraps_witness :
  exists name,
    nth_error ["neg"; "pos"]%string (Z.to_nat (len ["neg"; "pos"]%string + -1))
    = Some name /\
    make_label (Demo.cmdline false None "m" false (Some ["neg"; "pos"]) None)
      (-1) = ([], inr (VStr name)).
Proof.
  apply (make_label_negative_wraps
           (Demo.cmdline false None "m" false (Some ["neg"; "pos"]) None)
           ["neg"; "pos"]%string (-1)).
  - reflexivity.
  - discriminate.
  - lia.
  - vm_compute. discriminate.
Defined.

(** ** Batch mode: what is printed *)

Section BatchOutput.
Context {X I V R : Type} (w : World X I V R).

(** X2: batch mode without [--scores] prints, for the k-th identifier and
    the k-th prediction taken together, the line [id TAB label]; the
    identifiers are those of the data when it carries any, and the output
    stops with the shorter of the two sequences. *)
Theorem batch_labels_output (args : Args) (path : string) :
  index args = Some [path] ->
  scores args = false ->
  Forall (resolvable args)
    (predict (joblib_load w (model args))
       (tocsr w (data_index (load_index w path)))) ->
  outcome (batch_predictor w args) = inr tt /\
  printed (trace (batch_predictor w args)) =
  map (fun x : pyval * Z =>
         (py_str (fst x) ++ tab ++ label_text args (snd x) ++ newline)%string)
    (combine (get_or_make_text_ids w (load_index w path))
       (predict (joblib_load w (model args))
          (tocsr w (data_index (load_index w path))))) /\
  List.length (printed (trace (batch_predictor w args))) =
  Nat.min (List.length (get_or_make_text_ids w (load_index w path)))
    (List.length (predict (joblib_load w (model args))
                    (tocsr w (data_index (load_index w path))))).
Proof.
  intros Hindex Hscores Hres.
  set (d := load_index w path) in *.
  set (pl := joblib_load w (model args)) in *.
  set (preds := predict pl (tocsr w (data_index d))) in *.
  unfold batch_predictor. rewrite Hindex.
  change (truthy (Some [path])) with true.
  change (seq_of (Some [path])) with [path].
  change (1 <? len [path]) with false.
  change (py_getitem [path] 0) with (Some path).
  cbn [negb]. cbv iota. fold d. fold pl.
  rewrite !trace_emit_bind, !outcome_emit_bind.
  change (call_predict pl (tocsr w (data_index d)))
    with (([Invoke Predict], inr preds) : Py (list Z)).
  rewrite bind_ok. cbn [trace outcome fst snd].
  rewrite Hscores. rewrite !trace_bind, !outcome_bind.
  change (outcome (ret None)) with (@inr exn (option (list score_row)) None).
  change (trace (ret None)) with (@nil event).
  cbv iota.
  rewrite report_labels_run by exact Hres.
  cbn [trace outcome fst snd app printed].
  rewrite printed_map_Print.
  split; [reflexivity | split; [reflexivity |]].
  now rewrite length_map, length_combine.
Qed.

(** X3: batch mode with [--scores] prints [id TAB label TAB scores] for the
    k-th identifier, prediction and score row taken together, and stops
    with the shortest of the three sequences. *)
Theorem batch_scores_output (args : Args) (path : string)
    (sc : list score_row) :
  index args = Some [path] ->
  scores args = true ->
  outcome (get_scores w (joblib_load w (model args)) (load_index w path))
  = inr sc ->
  Forall (resolvable args)
    (predict (joblib_load w (model args))
       (tocsr w (data_index (load_index w path)))) ->
  outcome (batch_predictor w args) = inr tt /\
  printed (trace (batch_predictor w args)) =
  map (fun x : pyval * (Z * score_row) =>
         (py_str (fst x) ++ tab ++ label_text args (fst (snd x)) ++
          (tab ++ score_str (snd (snd x))) ++ newline)%string)
    (combine (get_or_make_text_ids w (load_index w path))
       (combine (predict (joblib_load w (model args))
                   (tocsr w (data_index (load_index w path)))) sc)) /\
  List.length (printed (trace (batch_predictor w args))) =
  Nat.min (List.length (get_or_make_text_ids w (load_index w path)))
    (Nat.min
       (List.length (predict (joblib_load w (model args))
                       (tocsr w (data_index (load_index w path)))))
       (List.length sc)).
Proof.
  intros Hindex Hscores Hout Hres.
  set (d := load_index w path) in *.
  set (pl := joblib_load w (model args)) in *.
  set (preds := predict pl (tocsr w (data_index d))) in *.
  unfold batch_predictor. rewrite Hindex.
  change (truthy (Some [path])) with true.
  change (seq_of (Some [path])) with [path].
  change (1 <? len [path]) with false.
  change (py_getitem [path] 0) with (Some path).
  cbn [negb]. cbv iota. fold d. fold pl.
  rewrite !trace_emit_bind, !outcome_emit_bind.
  change (call_predict pl (tocsr w (data_index d)))
    with (([Invoke Predict], inr preds) : Py (list Z)).
  rewrite bind_ok. cbn [trace outcome fst snd].
  rewrite Hscores. rewrite !trace_bind, !outcome_bind, Hout.
  change (outcome (ret (Some sc))) with (@inr exn _ (Some sc)).
  change (trace (ret (Some sc))) with (@nil event).
  cbv iota. cbn [seq_of].
  rewrite report_with_scores_run by exact Hres.
  cbn [trace outcome fst snd].
  change (LoadIndex path :: LoadModel (model args) :: ?t)
    with ([LoadIndex path; LoadModel (model args)] ++ t).
  rewrite !printed_app, printed_get_scores. cbn [app printed].
  rewrite printed_map_Print.
  split; [reflexivity | split; [reflexivity |]].
  now rewrite length_map, !length_combine.
Qed.

End BatchOutput.

Lemma batch_labels_output_witness :
  printed (trace (batch_predictor Demo.world
                    (Demo.cmdline false (Some ["ids"]) "proba" false
                       (Some ["neg"; "pos"]) None)))
  = [("a" ++ tab ++ "pos" ++ newline)%string;
     ("b" ++ tab ++ "pos" ++ newline)%string;
     ("c" ++ tab ++ "pos" ++ newline)%string].
Proof.
  apply (batch_labels_output Demo.world
           (Demo.cmdline false (Some ["ids"]) "proba" false
              (Some ["neg"; "pos"]) None) "ids").
  - reflexivity.
  - reflexivity.
  - repeat constructor; intros _; vm_compute; discriminate.
Defined.

Lemma batch_scores_output_witness :
  printed (trace (batch_predictor Demo.world
                    (Demo.cmdline false (Some ["ab"]) "svm" true None None)))
  = [("1" ++ tab ++ "0" ++ tab ++ " 0.50000000" ++ newline)%string;
     ("2" ++ tab ++ "0" ++ tab ++ " 0.50000000" ++ newline)%string].
Proof.
  apply (batch_scores_output Demo.world
           (Demo.cmdline false (Some ["ab"]) "svm" true None None) "ab"
           [Scalar Demo.half; Scalar Demo.half]).
  - reflexivity.
  - reflexivity.
  - reflexivity.
  - repeat constructor; intros H; discriminate H.
Defined.

(** ** Which effects happen, and how often *)

Lemma occurrences_app (sel : event -> bool) (t u : list event) :
  occurrences sel (t ++ u) = (occurrences sel t + occurrences sel u)%nat.
Proof. unfold occurrences. now rewrite filter_app, length_app. Qed.

Lemma occurrences_none (sel allowed : event -> bool) (t : list event) :
  (forall ev, allowed ev = true -> sel ev = false) ->
  forallb allowed t = true -> occurrences sel t = 0%nat.
Proof.
  intros Hsel. induction t as [| ev t IH]; [reflexivity |].
  cbn [forallb]. intros H. apply andb_prop in H as [Hev Ht].
  unfold occurrences in *. cbn [filter]. rewrite (Hsel ev Hev). now apply IH.
Qed.

Lemma effects_in_bind {A B : Type} (allowed : event -> bool)
    (m : Py A) (k : A -> Py B) :
  effects_in allowed m -> (forall a, effects_in allowed (k a)) ->
  effects_in allowed (bind m k).
Proof.
  unfold effects_in. intros Hm Hk.
  rewrite trace_bind, forallb_app, Hm.
  destruct (outcome m); [reflexivity | apply Hk].
Qed.

Lemma effects_in_catch {A : Type} (allowed : event -> bool) (m h : Py A) :
  effects_in allowed m -> effects_in allowed h ->
  effects_in allowed (except_AttributeError m h).
Proof.
  unfold effects_in. intros Hm Hh.
  destruct m as [t [e | a]]; simpl in *; [| assumption].
  destruct e; simpl; try (rewrite app_nil_r; assumption).
  destruct h as [t' r]; simpl in *. now rewrite forallb_app, Hm, Hh.
Qed.

Lemma effects_in_for_each {A : Type} (allowed : event -> bool)
    (xs : list A) (body : A -> Py unit) :
  (forall x, effects_in allowed (body x)) ->
  effects_in allowed (for_each xs body).
Proof.
  intros Hbody. induction xs as [| x xs IH]; [reflexivity |].
  cbn [for_each]. apply effects_in_bind; [apply Hbody | intros _; exact IH].
Qed.

Lemma effects_in_make_label (allowed : event -> bool) (args : Args) (i : Z) :
  effects_in allowed (make_label args i).
Proof. unfold effects_in. now rewrite make_label_pure. Qed.

Lemma scoring_first_row (rows : list score_row) :
  effects_in scoring_or_print (first_row rows).
Proof. unfold first_row. destruct (py_getitem _ _); reflexivity. Qed.

Lemma scoring_call_predict_proba {X : Type} (p : Pipeline X) (x : X) :
  effects_in scoring_or_print (call_predict_proba p x).
Proof. unfold call_predict_proba. destruct (predict_proba p); reflexivity. Qed.

Lemma scoring_call_decision_function {X : Type} (p : Pipeline X) (x : X) :
  effects_in scoring_or_print (call_decision_function p x).
Proof.
  unfold call_decision_function. destruct (decision_function p); reflexivity.
Qed.

Create HintDb scoring.
#[local] Hint Resolve effects_in_make_label scoring_first_row
  scoring_call_predict_proba scoring_call_decision_function : scoring.

Ltac scoring_step :=
  first [ solve [ auto with scoring ]
        | reflexivity
        | apply effects_in_catch
        | apply effects_in_bind; [| intros ] ].

Lemma scoring_append_scores {X : Type} (p : Pipeline X) (x : X) (b : bool) :
  effects_in scoring_or_print (append_scores p x b).
Proof.
  unfold append_scores. apply effects_in_bind.
  - destruct b; repeat scoring_step.
  - intros [s b']. repeat scoring_step.
Qed.

Lemma scoring_get_scores {X I V R : Type} (w : World X I V R)
    (p : Pipeline X) (d : Data I) :
  effects_in scoring_or_print (get_scores w p d).
Proof. apply effects_in_catch; auto with scoring. Qed.

Lemma scoring_report_labels (preds : list Z) (ids : list pyval) (args : Args) :
  effects_in scoring_or_print (report_labels preds ids (make_label args)).
Proof.
  apply effects_in_for_each. intros [text_id prediction].
  apply effects_in_bind; [apply effects_in_make_label | reflexivity].
Qed.

Lemma scoring_report_with_scores (preds : list Z) (sc : list score_row)
    (ids : list pyval) (args : Args) :
  effects_in scoring_or_print (report_with_scores preds sc ids (make_label args)).
Proof.
  apply effects_in_for_each. intros [text_id [prediction i_scores]].
  apply effects_in_bind; [apply effects_in_make_label | reflexivity].
Qed.

(** The treatment of a row starts with [predict]; whatever follows is
    scoring and printing. *)
Lemma predict_row_trace {X : Type} (args : Args) (pl : Pipeline X) (b : bool)
    (row : pyval * X) :
  exists rest,
    trace (predict_row args pl b row) = Invoke Predict :: rest /\
    forallb scoring_or_print rest = true.
Proof.
  destruct row as [text_id features]. unfold predict_row.
  change (call_predict pl features)
    with (([Invoke Predict], inr (predict pl features)) : Py (list Z)).
  rewrite bind_ok. cbn [trace fst app].
  eexists. split; [reflexivity |].
  match goal with |- forallb _ (trace ?m) = true =>
    change (effects_in scoring_or_print m) end.
  apply effects_in_bind;
    [destruct (len (predict pl features) =? 1); reflexivity | intros _].
  destruct (py_getitem (predict pl features) 0); [| reflexivity].
  apply effects_in_bind; [apply effects_in_make_label | intros l].
  apply effects_in_bind; [reflexivity | intros _].
  destruct (scores args); [| reflexivity].
  apply effects_in_bind; [apply scoring_append_scores | reflexivity].
Qed.

Lemma occurrences_for_each_once {A : Type} (sel : event -> bool)
    (xs : list A) (body : A -> Py unit) :
  (forall x, occurrences sel (trace (body x)) = 1%nat) ->
  (occurrences sel (trace (for_each xs body)) <= List.length xs)%nat /\
  (outcome (for_each xs body) = inr tt ->
   occurrences sel (trace (for_each xs body)) = List.length xs).
Proof.
  intros Hbody. induction xs as [| x xs [IHle IHeq]]; cbn [for_each].
  - split; [apply Nat.le_refl | reflexivity].
  - rewrite trace_bind, outcome_bind, occurrences_app, Hbody.
    destruct (outcome (body x)) as [e | []].
    + split; [cbn; lia | discriminate].
    + split; [cbn [List.length]; lia | intros H; rewrite (IHeq H); reflexivity].
Qed.

Lemma forallb_weaken (P Q : event -> bool) (t : list event) :
  (forall ev, P ev = true -> Q ev = true) ->
  forallb P t = true -> forallb Q t = true.
Proof.
  intros HPQ. induction t as [| ev t IH]; [reflexivity |].
  cbn [forallb]. intros H. apply andb_prop in H as [Hev Ht].
  now rewrite (HPQ ev Hev), (IH Ht).
Qed.

Lemma scoring_no_input_load (ev : event) :
  scoring_or_print ev = true -> no_input_load ev = true.
Proof. destruct ev as [ | | | [ | | ] | ]; simpl; congruence. Qed.

Lemma scoring_not_predict (ev : event) :
  scoring_or_print ev = true -> is_predict ev = false.
Proof. destruct ev as [ | | | [ | | ] | ]; simpl; congruence. Qed.

Lemma no_input_load_not_vocabulary (ev : event) :
  no_input_load ev = true -> is_load_vocabulary ev = false.
Proof. destruct ev; simpl; congruence. Qed.

Lemma no_input_load_not_index (ev : event) :
  no_input_load ev = true -> is_load_index ev = false.
Proof. destruct ev; simpl; congruence. Qed.

Lemma predict_row_predicts_once {X : Type} (args : Args) (pl : Pipeline X)
    (b : bool) (row : pyval * X) :
  occurrences is_predict (trace (predict_row args pl b row)) = 1%nat.
Proof.
  destruct (predict_row_trace args pl b row) as (rest & -> & Hrest).
  change (Invoke Predict :: rest) with ([Invoke Predict] ++ rest).
  rewrite occurrences_app.
  now rewrite (occurrences_none _ _ rest scoring_not_predict Hrest).
Qed.

Lemma predict_row_no_input_load {X : Type} (args : Args) (pl : Pipeline X)
    (b : bool) (row : pyval * X) :
  effects_in no_input_load (predict_row args pl b row).
Proof.
  unfold effects_in.
  destruct (predict_row_trace args pl b row) as (rest & -> & Hrest).
  cbn [forallb no_input_load andb].
  exact (forallb_weaken _ _ rest scoring_no_input_load Hrest).
Qed.

Section EffectCounts.
Context {X I V R : Type} (w : World X I V R).

(** The effects of a batch run, past the usage checks: the index file, the
    model, one [predict], then scoring and printing. *)
Lemma batch_predictor_trace (args : Args) (path : string) :
  index args = Some [path] ->
  exists rest,
    trace (batch_predictor w args) =
    LoadIndex path :: LoadModel (model args) :: Invoke Predict :: rest /\
    forallb scoring_or_print rest = true.
Proof.
  intros Hindex. unfold batch_predictor. rewrite Hindex.
  change (truthy (Some [path])) with true.
  change (seq_of (Some [path])) with [path].
  change (1 <? len [path]) with false.
  change (py_getitem [path] 0) with (Some path).
  cbn [negb]. cbv iota.
  rewrite !trace_emit_bind.
  set (d := load_index w path). set (pl := joblib_load w (model args)).
  change (call_predict pl (tocsr w (data_index d)))
    with (([Invoke Predict], inr (predict pl (tocsr w (data_index d))))
          : Py (list Z)).
  rewrite bind_ok. cbn [trace fst app].
  eexists. split; [reflexivity |].
  match goal with |- forallb _ (trace ?m) = true =>
    change (effects_in scoring_or_print m) end.
  apply effects_in_bind.
  - destruct (scores args); [| reflexivity].
    apply effects_in_bind; [apply scoring_get_scores | reflexivity].
  - intros sc. destruct (scores args);
      [apply scoring_report_with_scores | apply scoring_report_labels].
Qed.

Lemma batch_predictor_usage_trace (args : Args) :
  (len (seq_of (index args)) =? 1) = false ->
  trace (batch_predictor w args) = [].
Proof.
  intros Hlen. unfold batch_predictor.
  destruct (index args) as [[| f [| g fs]] |]; try reflexivity.
  - discriminate Hlen.
  - cbn [truthy negb seq_of].
    assert (E : (1 <? len (f :: g :: fs)) = true).
    { apply Z.ltb_lt. unfold len. cbn [List.length]. lia. }
    now rewrite E.
Qed.

Lemma index_singleton (args : Args) :
  (len (seq_of (index args)) =? 1) = true ->
  exists path, index args = Some [path].
Proof.
  destruct (index args) as [[| f [| g fs]] |]; intros H;
    try discriminate H.
  - now exists f.
  - apply Z.eqb_eq in H. unfold len in H. cbn [seq_of List.length] in H. lia.
Qed.

Lemma predict_from_no_input_load (rows : R) (args : Args) (vocab : V) :
  effects_in no_input_load (predict_from w rows args vocab).
Proof.
  unfold predict_from. apply effects_in_bind; [reflexivity | intros _].
  apply effects_in_for_each. intros row. apply predict_row_no_input_load.
Qed.

(** X4: batch mode calls [predict] exactly once, for the whole matrix,
    whenever it gets past the usage checks (and never before); stream mode
    calls it once per decoded row it reaches, so once per row in a run of
    [predict_from] that completes. *)
Theorem predict_invocations (args : Args) :
  occurrences is_predict (trace (batch_predictor w args)) =
  (if len (seq_of (index args)) =? 1 then 1%nat else 0%nat) /\
  (forall rows vocab,
     (occurrences is_predict (trace (predict_from w rows args vocab)) <=
      List.length (FeatureEncoder w (transform_input w rows args) vocab
                     (find_id_col args)))%nat /\
     (outcome (predict_from w rows args vocab) = inr tt ->
      occurrences is_predict (trace (predict_from w rows args vocab)) =
      List.length (FeatureEncoder w (transform_input w rows args) vocab
                     (find_id_col args)))).
Proof.
  split.
  - destruct (len (seq_of (index args)) =? 1) eqn:Hlen.
    + destruct (index_singleton args Hlen) as [path Hindex].
      destruct (batch_predictor_trace args path Hindex) as (rest & -> & Hrest).
      change (LoadIndex path :: LoadModel (model args) :: Invoke Predict :: rest)
        with ([LoadIndex path; LoadModel (model args); Invoke Predict] ++ rest).
      rewrite occurrences_app.
      now rewrite (occurrences_none _ _ rest scoring_not_predict Hrest).
    + now rewrite (batch_predictor_usage_trace args Hlen).
  - intros rows vocab. unfold predict_from.
    rewrite trace_emit_bind, outcome_emit_bind.
    change (LoadModel (model args) :: ?t) with ([LoadModel (model args)] ++ t).
    rewrite occurrences_app. cbn [occurrences filter is_predict List.length Nat.add].
    apply occurrences_for_each_once. intros row.
    apply predict_row_predicts_once.
Qed.

(** X5: which input files a run loads depends on the mode alone: stream
    mode loads the vocabulary exactly once (however many files it reads)
    and never an index file; batch mode loads its one index file exactly
    once and never a vocabulary; a run stopped by a usage error loads
    neither. *)
Theorem input_loads_by_mode (args : Args) :
  occurrences is_load_vocabulary (trace (predict_labels w args)) =
  (if text args then
     match vocabulary args with Some _ => 1 | None => 0 end
   else 0)%nat /\
  occurrences is_load_index (trace (predict_labels w args)) =
  (if text args then 0%nat
   else if len (seq_of (index args)) =? 1 then 1%nat else 0%nat).
Proof.
  unfold predict_labels. destruct (text args).
  - assert (Hrest : forall (args' : Args) vocab,
              effects_in no_input_load
                (if negb (truthy (index args')) then
                   predict_from w (row_generator w (if csv args then "excel" else "plain")%string)
                     args' vocab
                 else
                   for_each (seq_of (index args'))
                     (fun file =>
                        predict_from w
                          (row_generator_from_file w file
                             (if csv args then "excel" else "plain")%string
                             (encoding args'))
                          args' vocab))).
    { intros args' vocab. destruct (negb (truthy (index args'))).
      - apply predict_from_no_input_load.
      - apply effects_in_for_each. intros file.
        apply predict_from_no_input_load. }
    unfold stream_predictor.
    destruct (vocabulary args) as [path |]; [| split; reflexivity].
    rewrite trace_emit_bind.
    match goal with |- context [LoadVocabulary path :: trace ?m] =>
      change (LoadVocabulary path :: trace m)
        with ([LoadVocabulary path] ++ trace m);
      assert (Hm : forallb no_input_load (trace m) = true) by apply Hrest
    end.
    rewrite !occurrences_app.
    rewrite (occurrences_none _ _ _ no_input_load_not_vocabulary Hm).
    rewrite (occurrences_none _ _ _ no_input_load_not_index Hm).
    split; reflexivity.
  - destruct (len (seq_of (index args)) =? 1) eqn:Hlen.
    + destruct (index_singleton args Hlen) as [path Hindex].
      destruct (batch_predictor_trace args path Hindex) as (rest & -> & Hrest).
      change (LoadIndex path :: LoadModel (model args) :: Invoke Predict :: rest)
        with ([LoadIndex path; LoadModel (model args); Invoke Predict] ++ rest).
      rewrite !occurrences_app.
      pose proof (forallb_weaken _ _ rest scoring_no_input_load Hrest) as Hr.
      rewrite (occurrences_none _ _ _ no_input_load_not_vocabulary Hr).
      rewrite (occurrences_none _ _ _ no_input_load_not_index Hr).
      split; reflexivity.
    + rewrite (batch_predictor_usage_trace args Hlen). split; reflexivity.
Qed.

End EffectCounts.

(** ** Stream mode: what is printed *)

Lemma append_nil_r (s : string) : (s ++ "")%string = s.
Proof. induction s as [| a s IH]; simpl; [reflexivity | now rewrite IH]. Qed.

Lemma concat_cons (x : string) (xs : list string) :
  String.concat "" (x :: xs) = (x ++ String.concat "" xs)%string.
Proof. destruct xs; simpl; [now rewrite append_nil_r | reflexivity]. Qed.

Lemma concat_app (xs ys : list string) :
  String.concat "" (xs ++ ys) =
  (String.concat "" xs ++ String.concat "" ys)%string.
Proof.
  induction xs as [| x xs IH]; [reflexivity |].
  change ((x :: xs) ++ ys) with (x :: (xs ++ ys)).
  now rewrite !concat_cons, IH, append_assoc.
Qed.

Lemma stdout_app (t u : list event) :
  stdout (t ++ u) = (stdout t ++ stdout u)%string.
Proof. unfold stdout. now rewrite printed_app, concat_app. Qed.

(** With a score row at hand, [append_scores] prints it and returns. *)
Lemma append_scores_run {X : Type} (p : Pipeline X) (x : X) (r : score_row) :
  row_scores p x = Some r ->
  outcome (append_scores p x false) <> inl IndexError /\
  (exists b, outcome (append_scores p x false) = inr b) /\
  printed (trace (append_scores p x false)) = [(score_str r ++ newline)%string].
Proof.
  unfold row_scores, append_scores, call_predict_proba,
    call_decision_function, first_row.
  destruct (predict_proba p) as [f |].
  - intros Hr. cbn. rewrite Hr. cbn.
    split; [discriminate | split; [now exists false | reflexivity]].
  - destruct (decision_function p) as [g |]; [| discriminate].
    intros Hr. cbn. rewrite Hr. cbn.
    split; [discriminate | split; [now exists true | reflexivity]].
Qed.

Lemma single_prediction (preds : list Z) :
  List.length preds = 1%nat -> preds = [hd 0 preds].
Proof. destruct preds as [| p [| q preds]]; cbn; intros H; now try discriminate H. Qed.

Lemma predict_row_stdout {X : Type} (args : Args) (pl : Pipeline X)
    (row : pyval * X) :
  List.length (predict pl (snd row)) = 1%nat ->
  resolvable args (hd 0 (predict pl (snd row))) ->
  (scores args = true -> row_scores pl (snd row) <> None) ->
  outcome (predict_row args pl false row) = inr tt /\
  stdout (trace (predict_row args pl false row)) = stream_line args pl row.
Proof.
  destruct row as [text_id features]. cbn [fst snd].
  intros Hlen Hres Hsc. unfold predict_row, stream_line. cbn [fst snd].
  change (call_predict pl features)
    with (([Invoke Predict], inr (predict pl features)) : Py (list Z)).
  rewrite bind_ok. cbn [trace outcome fst snd].
  pose proof (single_prediction _ Hlen) as Hone.
  set (p := hd 0 (predict pl features)) in *.
  rewrite Hone.
  change (len [p] =? 1) with true. cbv iota. rewrite bind_ret.
  change (py_getitem [p] 0) with (Some p). cbv iota.
  destruct (make_label_resolvable args p Hres) as [l Hl].
  unfold label_text. rewrite Hl. rewrite bind_ok.
  unfold print, emit. rewrite bind_ok. cbn [trace outcome fst snd].
  destruct (scores args).
  - destruct (row_scores pl features) as [r |] eqn:Er;
      [| now elim (Hsc eq_refl)].
    destruct (append_scores_run pl features r Er) as (_ & [b Hb] & Hp).
    rewrite outcome_bind, trace_bind, Hb. cbn [outcome trace fst snd ret Monad_Py py_ret].
    split; [reflexivity |].
    rewrite app_nil_r. cbn [app].
    match goal with |- stdout (?a :: ?b :: ?t) = _ =>
      change (a :: b :: t) with ([a; b] ++ t) end.
    rewrite stdout_app. unfold stdout. rewrite Hp.
    cbn. now rewrite !append_assoc, ?append_nil_r.
  - split; [reflexivity |].
    cbn. now rewrite !append_assoc, ?append_nil_r.
Qed.

Lemma for_each_stdout {A : Type} (xs : list A) (body : A -> Py unit)
    (line : A -> string) :
  (forall x, In x xs ->
     outcome (body x) = inr tt /\ stdout (trace (body x)) = line x) ->
  outcome (for_each xs body) = inr tt /\
  stdout (trace (for_each xs body)) = String.concat "" (map line xs).
Proof.
  induction xs as [| x xs IH]; intros Hbody; [split; reflexivity |].
  destruct (Hbody x (or_introl eq_refl)) as [Hout Hline].
  destruct IH as [IHout IHline]; [intros y Hy; apply Hbody; now right |].
  cbn [for_each map]. rewrite outcome_bind, trace_bind, Hout, stdout_app.
  split; [exact IHout |].
  now rewrite concat_cons, Hline, IHline.
Qed.

Section StreamOutput.
Context {X I V R : Type} (w : World X I V R).

(** X6: in stream mode, when [predict] answers exactly one prediction for
    every decoded row, each a label the resolver accepts, and (with
    [--scores]) the pipeline yields a score row for every row, the run over
    one input source completes and standard output holds one line per
    row, in order: identifier, tab, label and, with [--scores], a tab and
    the tab-joined formatted scores. *)
Theorem predict_from_stdout (rows : R) (args : Args) (vocab : V) :
  (forall row,
     In row (FeatureEncoder w (transform_input w rows args) vocab
               (find_id_col args)) ->
     List.length (predict (joblib_load w (model args)) (snd row)) = 1%nat /\
     resolvable args (hd 0 (predict (joblib_load w (model args)) (snd row))) /\
     (scores args = true ->
      row_scores (joblib_load w (model args)) (snd row) <> None)) ->
  outcome (predict_from w rows args vocab) = inr tt /\
  stdout (trace (predict_from w rows args vocab)) =
  String.concat ""
    (map (stream_line args (joblib_load w (model args)))
       (FeatureEncoder w (transform_input w rows args) vocab
          (find_id_col args))).
Proof.
  intros Hrows. unfold predict_from.
  rewrite trace_emit_bind, outcome_emit_bind.
  change (stdout (LoadModel (model args) :: ?t)) with (stdout t).
  apply for_each_stdout. intros row Hin.
  destruct (Hrows row Hin) as (Hlen & Hres & Hsc).
  now apply predict_row_stdout.
Qed.

(** X7: when [--scores] is given and the pipeline has neither scoring
    method, the run stops at the first row with the [AttributeError] of
    [decision_function], after the row's identifier and label went out
    followed by a tab: standard output is left with an unfinished line. *)
Theorem scoring_failure_leaves_partial_line
    (rows : R) (args : Args) (vocab : V) (text_id : pyval) (features : X)
    (rest : list (pyval * X)) (p : Z) :
  FeatureEncoder w (transform_input w rows args) vocab (find_id_col args)
  = (text_id, features) :: rest ->
  scores args = true ->
  predict_proba (joblib_load w (model args)) = None ->
  decision_function (joblib_load w (model args)) = None ->
  predict (joblib_load w (model args)) features = [p] ->
  resolvable args p ->
  outcome (predict_from w rows args vocab) =
  inl (AttributeError "decision_function") /\
  stdout (trace (predict_from w rows args vocab)) =
  (py_str text_id ++ tab ++ label_text args p ++ tab)%string /\
  score_calls (trace (predict_from w rows args vocab)) =
  [PredictProba; DecisionFunction].
Proof.
  intros Hstream Hscores Hproba Hdecision Hpred Hres.
  destruct (make_label_resolvable args p Hres) as [l Hl].
  assert (Hrow :
    predict_row args (joblib_load w (model args)) false (text_id, features) =
    ([Invoke Predict;
      Print (py_str text_id ++ tab ++ py_str l ++ tab)%string;
      Invoke PredictProba; Invoke DecisionFunction],
     inl (AttributeError "decision_function"))).
  { unfold predict_row.
    change (call_predict (joblib_load w (model args)) features)
      with (([Invoke Predict],
             inr (predict (joblib_load w (model args)) features))
            : Py (list Z)).
    rewrite Hpred, bind_ok.
    change (len [p] =? 1) with true. cbv iota. rewrite bind_ret.
    change (py_getitem [p] 0) with (Some p). cbv iota.
    rewrite Hl, bind_ok. unfold print, emit. rewrite bind_ok, Hscores.
    unfold append_scores, call_predict_proba, call_decision_function.
    rewrite Hproba, Hdecision. cbn. now rewrite !append_assoc. }
  unfold predict_from. rewrite Hstream. cbn [for_each].
  rewrite trace_emit_bind, outcome_emit_bind, Hrow.
  unfold label_text. rewrite Hl.
  split; [reflexivity | split; [| reflexivity]].
  unfold stdout. cbn. now rewrite ?append_assoc, ?append_nil_r.
Qed.

End StreamOutput.

(** X8: the [try] of [append_scores] covers the indexing of the result,
    but its handler only takes [AttributeError]: when [predict_proba]
    exists and answers no row, the [IndexError] ends the call, nothing is
    printed, and [decision_function] is not consulted. *)
Theorem append_scores_empty_proba {X : Type} (pl : Pipeline X) (x : X)
    (f : X -> list score_row) :
  predict_proba pl = Some f ->
  f x = [] ->
  append_scores pl x false = ([Invoke PredictProba], inl IndexError).
Proof.
  intros Hproba Hempty.
  unfold append_scores, call_predict_proba, first_row.
  rewrite Hproba. cbn. rewrite Hempty. reflexivity.
Qed.

Lemma predict_from_stdout_witness :
  stdout (trace (predict_from Demo.world [(VStr "a", 1%nat); (VStr "b", 1%nat)]
                   (Demo.cmdline true None "proba" true None (Some "v")) tt))
  = ("a" ++ tab ++ "1" ++ tab ++ " 0.10000000" ++ tab ++ " 0.90000000" ++
     newline ++
     "b" ++ tab ++ "1" ++ tab ++ " 0.10000000" ++ tab ++ " 0.90000000" ++
     newline)%string.
Proof.
  apply (predict_from_stdout Demo.world [(VStr "a", 1%nat); (VStr "b", 1%nat)]
           (Demo.cmdline true None "proba" true None (Some "v")) tt).
  intros row [<- | [<- | []]];
    (split; [reflexivity | split; [intros H; discriminate H |]]);
    intros _; vm_compute; discriminate.
Defined.

Lemma scoring_failure_leaves_partial_line_witness :
  outcome (predict_from Edge.world [(VStr "a", 1%nat); (VStr "b", 1%nat)]
             (Demo.cmdline true None "bare" true None (Some "v")) tt)
  = inl (AttributeError "decision_function") /\
  stdout (trace (predict_from Edge.world
                   [(VStr "a", 1%nat); (VStr "b", 1%nat)]
                   (Demo.cmdline true None "bare" true None (Some "v")) tt))
  = ("a" ++ tab ++ "1" ++ tab)%string.
Proof.
  destruct (scoring_failure_leaves_partial_line Edge.world
              [(VStr "a", 1%nat); (VStr "b", 1%nat)]
              (Demo.cmdline true None "bare" true None (Some "v")) tt
              (VStr "a") 1%nat [(VStr "b", 1%nat)] 1)
    as (Hout & Hstd & _).
  - reflexivity.
  - reflexivity.
  - reflexivity.
  - reflexivity.
  - reflexivity.
  - intros H; discriminate H.
  - split; [exact Hout | exact Hstd].
Defined.

Lemma append_scores_empty_proba_witness :
  append_scores Edge.hollow_pipeline 1%nat false =
  ([Invoke PredictProba], inl IndexError).
Proof.
  apply (append_scores_empty_proba Edge.hollow_pipeline 1%nat (fun _ => []));
    reflexivity.
Defined.

(** ** Stream mode over several files *)

Lemma for_each_complete {A : Type} (xs : list A) (body : A -> Py unit) :
  (forall x, In x xs -> outcome (body x) = inr tt) ->
  for_each xs body = (flat_map (fun x => trace (body x)) xs, inr tt).
Proof.
  induction xs as [| x xs IH]; intros Hbody; [reflexivity |].
  cbn [for_each flat_map].
  rewrite (run_eta (body x)), (Hbody x (or_introl eq_refl)), bind_ok.
  rewrite IH by (intros y Hy; apply Hbody; now right). reflexivity.
Qed.

Lemma for_each_stops {A : Type} (pre post : list A) (x : A)
    (body : A -> Py unit) (e : exn) :
  (forall y, In y pre -> outcome (body y) = inr tt) ->
  outcome (body x) = inl e ->
  for_each (pre ++ x :: post) body =
  (flat_map (fun y => trace (body y)) pre ++ trace (body x), inl e).
Proof.
  intros Hpre Hx. rewrite for_each_app, (for_each_complete pre body Hpre).
  rewrite bind_ok. cbn [for_each].
  rewrite (run_eta (body x)), Hx. reflexivity.
Qed.

Section StreamFiles.
Context {X I V R : Type} (w : World X I V R).

(** X9: stream mode over named files treats them in the order given, one
    after the other, after loading the vocabulary once: when the run of
    every file completes, the effects of the whole run (and so its output)
    are those of the files' runs, concatenated. *)
Theorem stream_files_in_order (args : Args) (path : string)
    (files : list string) :
  vocabulary args = Some path ->
  index args = Some files ->
  files <> [] ->
  (forall file, In file files ->
     outcome (file_run w args path file) = inr tt) ->
  outcome (stream_predictor w args) = inr tt /\
  trace (stream_predictor w args) =
  LoadVocabulary path :: flat_map (fun file => trace (file_run w args path file)) files /\
  printed (trace (stream_predictor w args)) =
  flat_map (fun file => printed (trace (file_run w args path file))) files.
Proof.
  intros Hvocab Hindex Hne Hfiles.
  assert (Hrun : stream_predictor w args =
                 (emit (LoadVocabulary path) ;;
                  for_each files (file_run w args path))).
  { unfold stream_predictor. rewrite Hvocab.
    cbn [index set_offsets encoding]. rewrite Hindex.
    destruct files as [| f fs]; [now elim Hne | reflexivity]. }
  rewrite Hrun, trace_emit_bind, outcome_emit_bind.
  rewrite (for_each_complete files _ Hfiles). cbn [trace outcome fst snd].
  split; [reflexivity | split; [reflexivity |]].
  cbn [printed]. clear. induction files as [| f fs IH]; [reflexivity |].
  cbn [flat_map]. now rewrite printed_app, IH.
Qed.

(** X10: a file whose run ends in an exception ends the whole stream run
    with that exception: the files after it are never read, and no
    pipeline is loaded for them. *)
Theorem stream_stops_at_failing_file (args : Args) (path : string)
    (pre post : list string) (file : string) (e : exn) :
  vocabulary args = Some path ->
  index args = Some (pre ++ file :: post) ->
  (forall f, In f pre -> outcome (file_run w args path f) = inr tt) ->
  outcome (file_run w args path file) = inl e ->
  outcome (stream_predictor w args) = inl e /\
  trace (stream_predictor w args) =
  LoadVocabulary path ::
    flat_map (fun f => trace (file_run w args path f)) pre ++
    trace (file_run w args path file) /\
  loads (trace (stream_predictor w args)) = S (List.length pre).
Proof.
  intros Hvocab Hindex Hpre Hfile.
  assert (Hrun : stream_predictor w args =
                 (emit (LoadVocabulary path) ;;
                  for_each (pre ++ file :: post) (file_run w args path))).
  { unfold stream_predictor. rewrite Hvocab.
    cbn [index set_offsets encoding]. rewrite Hindex.
    destruct pre; reflexivity. }
  rewrite Hrun, trace_emit_bind, outcome_emit_bind.
  rewrite (for_each_stops pre post file _ e Hpre Hfile).
  cbn [trace outcome fst snd].
  split; [reflexivity | split; [reflexivity |]].
  cbn [loads]. rewrite loads_app.
  unfold file_run at 2. rewrite loads_predict_from.
  assert (Hloads : loads (flat_map (fun f => trace (file_run w args path f)) pre)
                   = List.length pre).
  { clear. induction pre as [| f fs IH]; [reflexivity |].
    cbn [flat_map List.length]. rewrite loads_app, IH.
    unfold file_run. now rewrite loads_predict_from. }
  rewrite Hloads. lia.
Qed.

End StreamFiles.

Lemma stream_files_in_order_witness :
  printed (trace (stream_predictor Demo.world
                    (Demo.cmdline true (Some ["f"; "g"]) "proba" false None
                       (Some "v"))))
  = [("f:1" ++ tab ++ "1" ++ newline)%string;
     ("f:2" ++ tab ++ "1" ++ newline)%string;
     ("g:1" ++ tab ++ "1" ++ newline)%string;
     ("g:2" ++ tab ++ "1" ++ newline)%string].
Proof.
  apply (stream_files_in_order Demo.world
           (Demo.cmdline true (Some ["f"; "g"]) "proba" false None (Some "v"))
           "v" ["f"; "g"]).
  - reflexivity.
  - reflexivity.
  - discriminate.
  - intros file [<- | [<- | []]]; reflexivity.
Defined.

Lemma stream_stops_at_failing_file_witness :
  outcome (stream_predictor Demo.world
             (Demo.cmdline true (Some ["f"; "g"]) "double" false None
                (Some "v")))
  = inl (AssertionError "not a single prediction: (2,)") /\
  loads (trace (stream_predictor Demo.world
                  (Demo.cmdline true (Some ["f"; "g"]) "double" false None
                     (Some "v")))) = 1%nat.
Proof.
  destruct (stream_stops_at_failing_file Demo.world
              (Demo.cmdline true (Some ["f"; "g"]) "double" false None
                 (Some "v"))
              "v" [] ["g"] "f"
              (AssertionError "not a single prediction: (2,)"))
    as (Hout & _ & Hloads).
  - reflexivity.
  - reflexivity.
  - intros f [].
  - reflexivity.
  - split; [exact Hout | exact Hloads].
Defined.

(** ** The exceptions a run can end in *)






Lemma raises_only_weaken {A : Type} (ok ok' : exn -> Prop) (m : Py A) :
  (forall e, ok e -> ok' e) -> raises_only ok m -> raises_only ok' m.
Proof. intros Himp Hm e He. apply Himp, Hm, He. Qed.







Section Exceptions.
Context {X I V R : Type} (w : World X I V R).









End Exceptions.


(** ** Batch mode: a label the resolver rejects *)

Lemma make_label_below (args : Args) (p : Z) :
  truthy (label args) = true ->
  p < - len (seq_of (label args)) ->
  make_label args p = ([], inl IndexError).
Proof.
  intros Ht Hp. unfold make_label. rewrite Ht.
  assert (Hlen : 0 <= len (seq_of (label args))) by (unfold len; lia).
  assert (E0 : (p <? len (seq_of (label args))) = true) by (apply Z.ltb_lt; lia).
  rewrite E0. unfold py_getitem.
  assert (E1 : (0 <=? p) = false) by (apply Z.leb_gt; lia).
  assert (E2 : (- len (seq_of (label args)) <=? p) = false)
    by (apply Z.leb_gt; lia).
  now rewrite E1, E2.
Qed.

Lemma report_labels_stops (args : Args) (pre post : list Z) (p : Z)
    (ids : list pyval) :
  Forall (resolvable args) pre ->
  truthy (label args) = true ->
  p < - len (seq_of (label args)) ->
  (List.length pre < List.length ids)%nat ->
  report_labels (pre ++ p :: post) ids (make_label args) =
  (map (fun x : pyval * Z =>
          Print (py_str (fst x) ++ tab ++ label_text args (snd x) ++ newline)%string)
     (combine ids pre), inl IndexError).
Proof.
  intros Hres Ht Hp. revert ids.
  induction Hres as [| q pre Hq Hpre IH]; intros ids Hlen.
  - destruct ids as [| id0 ids]; [cbn in Hlen; lia |].
    unfold report_labels. cbn [app combine for_each map].
    rewrite (make_label_below args p Ht Hp). reflexivity.
  - destruct ids as [| id0 ids]; [cbn in Hlen; lia |].
    cbn [List.length] in Hlen.
    specialize (IH ids ltac:(lia)).
    unfold report_labels in *. cbn [app combine for_each map fst snd].
    destruct (make_label_resolvable args q Hq) as [l Hl].
    unfold label_text at 1. rewrite Hl. rewrite bind_ok.
    change (print [id0; l] newline)
      with (([Print (join tab (map py_str [id0; l]) ++ newline)%string], inr tt)
            : Py unit).
    cbn [trace outcome fst snd app]. rewrite bind_ok, IH.
    cbn [trace outcome fst snd app join map py_str].
    now rewrite !append_assoc.
Qed.

(** X12: batch output is printed line by line, so a prediction the label
    resolver rejects (one below [-len(label)]) ends the run in an
    [IndexError] with the lines of the rows before it already on standard
    output. *)
Theorem batch_stops_at_rejected_label
    {X I V R : Type} (w : World X I V R) (args : Args) (path : string)
    (pre post : list Z) (p : Z) :
  index args = Some [path] ->
  scores args = false ->
  predict (joblib_load w (model args))
    (tocsr w (data_index (load_index w path))) = pre ++ p :: post ->
  Forall (resolvable args) pre ->
  truthy (label args) = true ->
  p < - len (seq_of (label args)) ->
  (List.length pre < List.length (get_or_make_text_ids w (load_index w path)))%nat ->
  outcome (batch_predictor w args) = inl IndexError /\
  printed (trace (batch_predictor w args)) =
  map (fun x : pyval * Z =>
         (py_str (fst x) ++ tab ++ label_text args (snd x) ++ newline)%string)
    (combine (get_or_make_text_ids w (load_index w path)) pre).
Proof.
  intros Hindex Hscores Hpred Hres Ht Hp Hlen.
  unfold batch_predictor. rewrite Hindex.
  change (truthy (Some [path])) with true.
  change (seq_of (Some [path])) with [path].
  change (1 <? len [path]) with false.
  change (py_getitem [path] 0) with (Some path).
  cbn [negb]. cbv iota.
  rewrite !trace_emit_bind, !outcome_emit_bind.
  change (call_predict (joblib_load w (model args))
            (tocsr w (data_index (load_index w path))))
    with (([Invoke Predict],
           inr (predict (joblib_load w (model args))
                  (tocsr w (data_index (load_index w path)))))
          : Py (list Z)).
  rewrite bind_ok, Hpred. cbn [trace outcome fst snd].
  rewrite Hscores. rewrite !trace_bind, !outcome_bind.
  change (outcome (ret None)) with (@inr exn (option (list score_row)) None).
  change (trace (ret None)) with (@nil event).
  cbv iota.
  rewrite (report_labels_stops args pre post p _ Hres Ht Hp Hlen).
  cbn [trace outcome fst snd app printed].
  now rewrite printed_map_Print.
Qed.

Lemma batch_stops_at_rejected_label_witness :
  outcome (batch_predictor Edge.negative_world
             (Demo.cmdline false (Some ["ab"]) "m" false (Some ["neg"]) None))
  = inl IndexError /\
  printed (trace (batch_predictor Edge.negative_world
                    (Demo.cmdline false (Some ["ab"]) "m" false
                       (Some ["neg"]) None)))
  = [("1" ++ tab ++ "neg" ++ newline)%string].
Proof.
  apply (batch_stops_at_rejected_label Edge.negative_world
           (Demo.cmdline false (Some ["ab"]) "m" false (Some ["neg"]) None)
           "ab" [0] [] (-2)).
  - reflexivity.
  - reflexivity.
  - reflexivity.
  - repeat constructor. intros _. vm_compute. discriminate.
  - reflexivity.
  - reflexivity.
  - vm_compute. lia.
Defined.

(** ** Batch mode: scores that cannot be had *)

(** X13: batch mode fetches all the scores before it prints anything: with
    [--scores] and a pipeline that has neither scoring method, the run
    ends in the [AttributeError] of [decision_function] right after both
    attempts, and standard output stays empty. *)
Theorem batch_scoring_failure_prints_nothing
    {X I V R : Type} (w : World X I V R) (args : Args) (path : string) :
  index args = Some [path] ->
  scores args = true ->
  predict_proba (joblib_load w (model args)) = None ->
  decision_function (joblib_load w (model args)) = None ->
  batch_predictor w args =
  ([LoadIndex path; LoadModel (model args); Invoke Predict;
    Invoke PredictProba; Invoke DecisionFunction],
   inl (AttributeError "decision_function")) /\
  printed (trace (batch_predictor w args)) = [].
Proof.
  intros Hindex Hscores Hproba Hdecision.
  assert (Hrun : batch_predictor w args =
    ([LoadIndex path; LoadModel (model args); Invoke Predict;
      Invoke PredictProba; Invoke DecisionFunction],
     inl (AttributeError "decision_function"))).
  { unfold batch_predictor. rewrite Hindex.
    change (truthy (Some [path])) with true.
    change (seq_of (Some [path])) with [path].
    change (1 <? len [path]) with false.
    change (py_getitem [path] 0) with (Some path).
    cbn [negb]. cbv iota. rewrite Hscores.
    unfold get_scores, call_predict_proba, call_decision_function.
    rewrite Hproba, Hdecision. reflexivity. }
  rewrite Hrun. split; reflexivity.
Qed.

Lemma batch_scoring_failure_prints_nothing_witness :
  batch_predictor Edge.world
    (Demo.cmdline false (Some ["ab"]) "bare" true None None) =
  ([LoadIndex "ab"; LoadModel "bare"; Invoke Predict;
    Invoke PredictProba; Invoke DecisionFunction],
   inl (AttributeError "decision_function")).
Proof.
  apply (batch_scoring_failure_prints_nothing Edge.world
           (Demo.cmdline false (Some ["ab"]) "bare" true None None) "ab");
    reflexivity.
Defined.
